(** * TCPServer.py: the request handlers and the server object

    A shallow embedding of
    [Addons/TCPServer_For_Softimage/Application/Plugins/TCPServer.py]
    (Python 2).  Byte strings ([str]) are [string]; Python integers are [Z];
    exceptions are values of [exn]; code that may raise returns a [result].
    The connection a handler reads from is the list of the chunks that the
    successive [recv(1024)] calls return (an exhausted list reads as the
    empty string, that is, the peer closed).  [Runtime.requestsStack] and the
    calls made on the host [Application] object are the fields of [world]. *)

From Stdlib Require Import String Ascii List ZArith Lia Bool DecimalString.
Import ListNotations.

Open Scope string_scope.
Open Scope Z_scope.

(** ** Values, exceptions and results *)

(** The classes that can be given as a requests handler: the four handlers
    of the module, their base class, and [object] for any class that is not
    a requests handler. *)
Inductive class_ : Type :=
| EchoRequestsHandler_
| LoggingStackDataRequestsHandler_
| DefaultStackDataRequestsHandler_
| PythonStackDataRequestsHandler_
| BaseRequestHandler_
| object_.

(** The Python values the server object is configured with. *)
Inductive value : Type :=
| VNone
| VBool (b : bool)
| VInt (z : Z)
| VLong (z : Z)
| VStr (s : string)
| VUnicode (s : string)
| VClass (c : class_).

(** [AssertionError] carries the name of the attribute whose assertion
    failed, [socket_error] the arguments of the [socket.error]. *)
Inductive exn : Type :=
| IndexError
| TypeError
| ValueError
| OverflowError
| AttributeError
| AssertionError (attribute : string)
| ProgrammingError (msg : string)
| ServerOperationError (msg : string)
| socket_error (args : list value)
| com_error (msg : string).

Inductive result (A : Type) : Type :=
| Ok (a : A)
| Raise (e : exn).

Arguments Ok {A} a.
Arguments Raise {A} e.

Definition rbind {A B} (r : result A) (k : A -> result B) : result B :=
  match r with
  | Ok a => k a
  | Raise e => Raise e
  end.

Declare Scope result_scope.
Delimit Scope result_scope with result.
Notation "'let?' x ':=' r 'in' k" := (rbind r (fun x => k))
  (at level 10, x name, r at level 100, k at level 200) : result_scope.
Open Scope result_scope.

(** Code that reads and writes a state [S] and may raise: the state is kept
    when an exception escapes. *)
Definition M (S A : Type) : Type := S -> result A * S.

Definition ret {S A} (a : A) : M S A := fun s => (Ok a, s).

Definition raise {S A} (e : exn) : M S A := fun s => (Raise e, s).

Definition lift {S A} (r : result A) : M S A := fun s => (r, s).

Definition bind {S A B} (m : M S A) (k : A -> M S B) : M S B :=
  fun s =>
    match m s with
    | (Ok a, s') => k a s'
    | (Raise e, s') => (Raise e, s')
    end.

(** [try: m except ...: handler]: [handler e] is [None] when no [except]
    clause catches [e]. *)
Definition try_except {S A} (m : M S A) (handler : exn -> option (M S A))
  : M S A :=
  fun s =>
    match m s with
    | (Ok a, s') => (Ok a, s')
    | (Raise e, s') =>
        match handler e with
        | Some h => h s'
        | None => (Raise e, s')
        end
    end.

Notation "'let!' x ':=' m 'in' k" := (bind m (fun x => k))
  (at level 10, x name, m at level 100, k at level 200) : result_scope.
Notation "m ';;' k" := (bind m (fun _ => k))
  (at level 100, k at level 200, right associativity) : result_scope.

(** ** Python's [str] and [list] primitives used by the module *)

Module Py.

(** [len(s)] *)
Definition len (s : string) : Z := Z.of_nat (String.length s).

(** [sub in s] *)
Fixpoint contains (sub s : string) : bool :=
  prefix sub s ||
  match s with
  | EmptyString => false
  | String _ s' => contains sub s'
  end.

(** [s.find(sub)]: the lowest index where [sub] occurs, [-1] when absent. *)
Fixpoint find_from (i : Z) (sub s : string) : Z :=
  if prefix sub s then i
  else match s with
       | EmptyString => -1
       | String _ s' => find_from (i + 1) sub s'
       end.

Definition find (s sub : string) : Z := find_from 0 sub s.

(** [s[:k]], with Python's treatment of negative and oversized bounds. *)
Definition slice_to (s : string) (k : Z) : string :=
  let n := len s in
  let k' := if k <? 0 then Z.max 0 (n + k) else Z.min k n in
  substring 0 (Z.to_nat k') s.

(** [bool(s)] for a string: the empty string is falsy. *)
Definition truthy (s : string) : bool :=
  match s with
  | EmptyString => false
  | String _ _ => true
  end.

(** [str.join("", l)] *)
Definition join (l : list string) : string := String.concat "" l.

Section Lists.
Context {A : Type}.

Definition llen (l : list A) : Z := Z.of_nat (List.length l).

(** The position a subscript denotes: negative subscripts count from the
    end; anything outside the list is an [IndexError]. *)
Definition position (l : list A) (i : Z) : result nat :=
  let j := if i <? 0 then llen l + i else i in
  if (j <? 0) || (llen l <=? j) then Raise IndexError else Ok (Z.to_nat j).

(** [l[i]] *)
Definition getitem (l : list A) (i : Z) : result A :=
  let? j := position l i in
  match nth_error l j with
  | Some a => Ok a
  | None => Raise IndexError
  end.

Fixpoint update (l : list A) (j : nat) (a : A) : list A :=
  match l, j with
  | [], _ => []
  | _ :: l', O => a :: l'
  | b :: l', S j' => b :: update l' j' a
  end.

(** [l[i] = a] *)
Definition setitem (l : list A) (i : Z) (a : A) : result (list A) :=
  let? j := position l i in Ok (update l j a).

(** [l.append(a)] *)
Definition append (l : list A) (a : A) : list A := l ++ [a].

(** [l.pop()] : the list without its last element, and that element. *)
Definition pop (l : list A) : result (list A * A) :=
  match rev l with
  | [] => Raise IndexError
  | a :: r => Ok (rev r, a)
  end.
End Lists.

End Py.

(** ** The state shared with the host *)

Inductive severity : Type := siInfo | siWarning | siVerbose.

(** A call made on the host's [Application] object. *)
Inductive host_call : Type :=
| ExecuteScript (path : string)
| ExecuteScriptCode (code language : string)
| LogMessage (message : string) (level : option severity).

(** [requestsStack] is [Runtime.requestsStack] (a deque: [append] at the
    right, [popleft] at the left); [calls] is the history of host calls,
    oldest first. *)
Record world : Type := mkWorld {
  requestsStack : list string;
  calls : list host_call
}.

Definition push_request (blob : string) (w : world) : world :=
  mkWorld (Py.append (requestsStack w) blob) (calls w).

(** ** PythonStackDataRequestsHandler.handle *)

Module PythonStackDataRequestsHandler.

Definition requestEnd : string := "<!RE>".

(** Which [break] ended the read loop. *)
Inductive loop_exit : Type :=
| PeerClosed          (* [if not data: break] *)
| RequestEndInData    (* [if self.requestEnd in data] *)
| RequestEndInTail.   (* [if self.requestEnd in tail] *)

(** What one pass of the loop body does with the chunk [data]. *)
Inductive pass : Type :=
| Break (why : loop_exit) (allData : list string)
| Continue (allData : list string).

Definition loop_body (allData : list string) (data : string) : result pass :=
  if negb (Py.truthy data) then Ok (Break PeerClosed allData)
  else if Py.contains requestEnd data then
    Ok (Break RequestEndInData
          (Py.append allData (Py.slice_to data (Py.find data requestEnd))))
  else
    let allData := Py.append allData data in
    if Py.llen allData >=? 1 then
      let? a := Py.getitem allData (-2) in
      let? b := Py.getitem allData (-1) in
      let tail := a ++ b in
      if Py.contains requestEnd tail then
        let? allData :=
          Py.setitem allData (-2) (Py.slice_to tail (Py.find tail requestEnd)) in
        let? popped := Py.pop allData in
        Ok (Break RequestEndInTail (fst popped))
      else Ok (Continue allData)
    else Ok (Continue allData).

(** [self.request.recv(1024)] on a connection given by its chunks. *)
Definition recv (conn : list string) : string * list string :=
  match conn with
  | [] => ("", [])
  | data :: conn' => (data, conn')
  end.

(** The [while True] loop: it ends at a [break], at an exception, or when
    the chunks run out (the next [recv] returns the empty string). *)
Fixpoint read_loop (allData : list string) (conn : list string)
  : result (loop_exit * list string) :=
  match conn with
  | [] => let? p := loop_body allData (fst (recv [])) in
          match p with
          | Break why allData' => Ok (why, allData')
          | Continue allData' => Ok (PeerClosed, allData')
          end
  | data :: conn' =>
      let? p := loop_body allData data in
      match p with
      | Break why allData' => Ok (why, allData')
      | Continue allData' => read_loop allData' conn'
      end
  end.

(** [handle]: the outcome ([True], or the exception that escapes) and the
    world it leaves. *)
Definition handle (conn : list string) (w : world) : result value * world :=
  match read_loop [] conn with
  | Ok (_, allData) => (Ok (VBool true), push_request (Py.join allData) w)
  | Raise e => (Raise e, w)
  end.

End PythonStackDataRequestsHandler.

(** ** String helpers of the dispatching handler *)

Module Text.

(** The characters [str.strip()] removes and the regular expression class
    [\s] matches (8-bit strings, no flags): space, TAB, LF, VT, FF, CR. *)
Definition isspace (c : ascii) : bool :=
  let n := nat_of_ascii c in
  Nat.eqb n 32 || (Nat.leb 9 n && Nat.leb n 13).

Fixpoint lstrip (s : string) : string :=
  match s with
  | String c s' => if isspace c then lstrip s' else s
  | EmptyString => EmptyString
  end.

Fixpoint rstrip (s : string) : string :=
  match s with
  | EmptyString => EmptyString
  | String c s' =>
      match rstrip s' with
      | EmptyString => if isspace c then EmptyString else String c EmptyString
      | r => String c r
      end
  end.

(** [s.strip()] *)
Definition strip (s : string) : string := lstrip (rstrip s).

Fixpoint drop (n : nat) (s : string) : string :=
  match n, s with
  | O, _ => s
  | S n', String _ s' => drop n' s'
  | S _, EmptyString => EmptyString
  end.

(** [fmt % args] for the conversions the module uses: [%s] takes the next
    argument, [%%] is a percent sign.  Too few arguments, or arguments left
    over at the end, are a [TypeError], as in Python. *)
Fixpoint format (fmt : string) (args : list string) : result string :=
  match fmt with
  | EmptyString =>
      match args with
      | [] => Ok EmptyString
      | _ :: _ => Raise TypeError
      end
  | String "%"%char (String "s"%char fmt') =>
      match args with
      | [] => Raise TypeError
      | a :: args' => let? r := format fmt' args' in Ok (a ++ r)
      end
  | String "%"%char (String "%"%char fmt') =>
      let? r := format fmt' args in Ok (String "%"%char r)
  | String "%"%char _ => Raise ValueError
  | String c fmt' => let? r := format fmt' args in Ok (String c r)
  end.

End Text.

(** ** The pattern of a tagged request

    In [processData] the pattern is: white space (any number), the language
    (group [language]), white space (any number), a vertical bar, and any
    number of characters other than a line feed (group [code]).

    [re.match] anchors the pattern at the start of the string and lets it
    end anywhere.  Each piece is a matcher in continuation-passing style, so
    a greedy [\s*] gives characters back when the rest fails. *)

Module Re.

Section Pieces.
Context {R : Type}.

(** [\s*] *)
Fixpoint spaces (k : string -> option R) (s : string) : option R :=
  match s with
  | String c s' =>
      if Text.isspace c then
        match spaces k s' with
        | Some r => Some r
        | None => k s
        end
      else k s
  | EmptyString => k s
  end.

(** A literal string. *)
Definition literal (lit : string) (k : string -> option R) (s : string)
  : option R :=
  if prefix lit s then k (Text.drop (String.length lit) s) else None.
End Pieces.

(** [.*] : the longest run of characters other than a line feed. *)
Fixpoint dot_star (s : string) : string :=
  match s with
  | String c s' =>
      if Nat.eqb (nat_of_ascii c) 10 then EmptyString
      else String c (dot_star s')
  | EmptyString => EmptyString
  end.

(** The groups of a successful match. *)
Record groups : Type := mkGroups { language : string; code : string }.

Definition match_ (lang : string) (data : string) : option groups :=
  spaces
    (literal lang
       (spaces
          (literal "|"
             (fun rest => Some (mkGroups lang (dot_star rest))))))
    data.

End Re.

(** ** Constants *)

Module Constants.
Definition name : string := "TCPServer".
Definition defaultAddress : string := "127.0.0.1".
Definition defaultPort : Z := 12288.
Definition languages : list string :=
  ["VBScript"; "JScript"; "Python"; "PythonScript"; "PerlScript"].
End Constants.

(** ** The host

    [os.path.exists] and the values the host's [ExecuteScript] and
    [ExecuteScriptCode] return (rendered by [%s]) are outside the module;
    they are taken as functions of the history of host calls and of their
    arguments.  A host call may raise. *)

Record host : Type := mkHost {
  exists_ : list host_call -> string -> bool;
  ExecuteScript_value : list host_call -> string -> result string;
  ExecuteScriptCode_value : list host_call -> string -> string -> result string
}.

(** Code whose state is the history of host calls. *)
Definition action (A : Type) : Type := M (list host_call) A.

(** [os.path.exists(path)] *)
Definition call_exists (h : host) (path : string) : action bool :=
  fun cs => (Ok (exists_ h cs path), cs).

Definition call_ExecuteScript (h : host) (path : string) : action string :=
  fun cs => (ExecuteScript_value h cs path, (cs ++ [ExecuteScript path])%list).

Definition call_ExecuteScriptCode (h : host) (code lang : string)
  : action string :=
  fun cs => (ExecuteScriptCode_value h cs code lang,
             (cs ++ [ExecuteScriptCode code lang])%list).

Definition call_LogMessage (message : string) (level : option severity)
  : action unit :=
  fun cs => (Ok tt, (cs ++ [LogMessage message level])%list).

(** [Application.LogMessage(fmt % args, level)]: the message is formatted
    before the call is made. *)
Definition log_formatted (fmt : string) (args : list string)
  (level : option severity) : action unit :=
  let! message := lift (Text.format fmt args) in
  call_LogMessage message level.

(** The [while Runtime.requestsStack: ... popleft() ...] loop shared by the
    draining handlers; [body] is what is done with each popped blob.  An
    exception leaves the blobs not yet popped on the stack. *)
Fixpoint drain (body : string -> action unit) (stack : list string)
  (cs : list host_call) : result value * world :=
  match stack with
  | [] => (Ok (VBool true), mkWorld [] cs)
  | blob :: stack' =>
      match body blob cs with
      | (Ok _, cs') => drain body stack' cs'
      | (Raise e, cs') => (Raise e, mkWorld stack' cs')
      end
  end.

Module EchoRequestsHandler.
(** [processData]: [pass] (the call returns [None]). *)
Definition processData (w : world) : result value * world := (Ok VNone, w).

(** The loop of [handle]; [sent] is the list of the arguments of the
    [self.request.send] calls made so far, oldest first. *)
Fixpoint handle_loop (conn : list string) (sent : list string) : list string :=
  match conn with
  | [] => sent
  | data :: conn' =>
      if negb (Py.truthy data) then sent
      else handle_loop conn' (sent ++ [data])%list
  end.

(** [handle]: its outcome, the world it leaves and what it sent. *)
Definition handle (conn : list string) (w : world)
  : result value * world * list string :=
  (Ok (VBool true), w, handle_loop conn []).
End EchoRequestsHandler.

(** The loop of [handle] in the logging and in the default handler: each
    chunk is appended to [Runtime.requestsStack] as it arrives. *)
Fixpoint push_chunks (conn : list string) (w : world) : world :=
  match conn with
  | [] => w
  | data :: conn' =>
      if negb (Py.truthy data) then w
      else push_chunks conn' (push_request data w)
  end.

Module LoggingStackDataRequestsHandler.
Definition handle (conn : list string) (w : world) : result value * world :=
  (Ok (VBool true), push_chunks conn w).

Definition body (blob : string) : action unit := call_LogMessage blob None.

Definition processData (w : world) : result value * world :=
  drain body (requestsStack w) (calls w).
End LoggingStackDataRequestsHandler.

Module DefaultStackDataRequestsHandler.
Definition handle (conn : list string) (w : world) : result value * world :=
  (Ok (VBool true), push_chunks conn w).

Section WithHost.
Variable h : host.

(** The [for language in Constants.languages] loop, left at the first
    language whose pattern matches. *)
Fixpoint for_language (languages : list string) (data : string)
  : action unit :=
  match languages with
  | [] => ret tt
  | language :: languages' =>
      match Re.match_ language data with
      | Some m =>
          let! value :=
            call_ExecuteScriptCode h (Re.code m) (Re.language m) in
          log_formatted "%s | Request return value: '%s'."
            [Constants.name; value] (Some siVerbose)
      | None => for_language languages' data
      end
  end.

Definition body (blob : string) : action unit :=
  let data := Text.strip blob in
  let! found := call_exists h data in
  if found then
    let! value := call_ExecuteScript h data in ret tt
  else for_language Constants.languages data.

Definition processData (w : world) : result value * world :=
  drain body (requestsStack w) (calls w).
End WithHost.
End DefaultStackDataRequestsHandler.

Module PythonStackProcess.
Section WithHost.
Variable h : host.

Definition body (blob : string) : action unit :=
  let! value := call_ExecuteScriptCode h blob "Python" in
  log_formatted "%s | Request return value: '%s'."
    [Constants.name; value] (Some siVerbose).

(** [PythonStackDataRequestsHandler.processData] *)
Definition processData (w : world) : result value * world :=
  drain body (requestsStack w) (calls w).
End WithHost.
End PythonStackProcess.

(** ** class TCPServer *)

Module TCPServer.

(** [str(v)], as [%s] renders it.  A class is rendered by its name. *)
Definition class_name (c : class_) : string :=
  match c with
  | EchoRequestsHandler_ => "EchoRequestsHandler"
  | LoggingStackDataRequestsHandler_ => "LoggingStackDataRequestsHandler"
  | DefaultStackDataRequestsHandler_ => "DefaultStackDataRequestsHandler"
  | PythonStackDataRequestsHandler_ => "PythonStackDataRequestsHandler"
  | BaseRequestHandler_ => "BaseRequestHandler"
  | object_ => "object"
  end.

Definition str (v : value) : string :=
  match v with
  | VNone => "None"
  | VBool true => "True"
  | VBool false => "False"
  | VInt z | VLong z => NilZero.string_of_int (Z.to_int z)
  | VStr s | VUnicode s => s
  | VClass c => class_name c
  end.

(** [issubclass(v, SocketServer.BaseRequestHandler)]: a [TypeError] when
    [v] is not a class. *)
Definition issubclass_BaseRequestHandler (v : value) : result bool :=
  match v with
  | VClass object_ => Ok false
  | VClass _ => Ok true
  | _ => Raise TypeError
  end.

(** [v.__name__] *)
Definition name_of (v : value) : result string :=
  match v with
  | VClass c => Ok (class_name c)
  | _ => Raise AttributeError
  end.

(** [v == n] for an integer literal [n]. *)
Definition eq_int (v : value) (n : Z) : bool :=
  match v with
  | VInt z | VLong z => z =? n
  | VBool b => (if b then 1 else 0) =? n
  | _ => false
  end.

(** The listening [SocketServer.TCPServer] and the thread that serves it. *)
Record socket_server : Type := mkSocketServer {
  server_address : value * value;
  RequestHandlerClass : value
}.

Inductive thread : Type := daemon_thread (target : socket_server).

(** The instance attributes. *)
Record t : Type := mk {
  __address : value;
  __port : value;
  __handler : value;
  __server : option socket_server;
  __worker : option thread;
  __online : bool
}.

Definition with_address (v : value) (self : t) : t :=
  mk v (__port self) (__handler self) (__server self) (__worker self)
    (__online self).

Definition with_port (v : value) (self : t) : t :=
  mk (__address self) v (__handler self) (__server self) (__worker self)
    (__online self).

Definition with_handler (v : value) (self : t) : t :=
  mk (__address self) (__port self) v (__server self) (__worker self)
    (__online self).

Definition with_server (v : option socket_server) (self : t) : t :=
  mk (__address self) (__port self) (__handler self) v (__worker self)
    (__online self).

Definition with_worker (v : option thread) (self : t) : t :=
  mk (__address self) (__port self) (__handler self) (__server self) v
    (__online self).

Definition with_online (v : bool) (self : t) : t :=
  mk (__address self) (__port self) (__handler self) (__server self)
    (__worker self) v.

(** [assert cond, ...] in the setter of [attribute]. *)
Definition assert_ (attribute : string) (cond : bool) : result unit :=
  if cond then Ok tt else Raise (AssertionError attribute).

(** *** Attributes properties *)

Definition address_get (self : t) : value := __address self.

Definition address_set (self : t) (v : value) : result t :=
  let? _ :=
    match v with
    | VNone => Ok tt
    | _ => assert_ "address"
             match v with VStr _ | VUnicode _ => true | _ => false end
    end in
  Ok (with_address v self).


Definition port_get (self : t) : value := __port self.

Definition port_set (self : t) (v : value) : result t :=
  let? _ :=
    match v with
    | VNone => Ok tt
    | _ => assert_ "port" match v with VInt _ => true | _ => false end
    end in
  Ok (with_port v self).


Definition handler_get (self : t) : value := __handler self.

Definition handler_set (self : t) (v : value) : result t :=
  let? _ :=
    match v with
    | VNone => Ok tt
    | _ => let? sub := issubclass_BaseRequestHandler v in
           assert_ "handler" sub
    end in
  Ok (with_handler v self).

Definition online_get (self : t) : bool := __online self.

Definition online_set (self : t) (v : value) : result t :=
  let? msg := Text.format "%s | '%s' attribute is read only!"
                ["TCPServer"; "online"] in
  Raise (ProgrammingError msg).

(** [TCPServer(address, port, handler)] *)
Definition __init__ (address port handler : value) : result t :=
  let self := mk VNone VNone VNone None None false in
  let self := with_address VNone self in
  let? self := address_set self address in
  let self := with_port VNone self in
  let? self := port_set self port in
  let self := with_handler VNone self in
  let? self := handler_set self handler in
  let self := with_server None self in
  let self := with_worker None self in
  let self := with_online false self in
  Ok self.

(** *** Class methods

    The state of a method call is the instance and the history of host
    calls.  [repr] is [str(self)]. *)

Definition state : Type := t * list host_call.

Definition get_self : M state t := fun s => (Ok (fst s), s).

Definition modify_self (f : t -> t) : M state unit :=
  fun s => (Ok tt, (f (fst s), snd s)).

Definition host_action {A} (a : action A) : M state A :=
  fun s => let (r, cs) := a (snd s) in (r, (fst s, cs)).

(** What the library does when asked for the listening socket:
    [SocketServer.TCPServer((address, port), handler)] binds it, or raises a
    [socket.error] with the given arguments, or raises one of the errors the
    socket module has for an address it cannot use. *)
Inductive library_error : Type := LibTypeError | LibOverflowError.

Definition exn_of_library_error (e : library_error) : exn :=
  match e with
  | LibTypeError => TypeError
  | LibOverflowError => OverflowError
  end.

Inductive bind_outcome : Type :=
| Bound
| SocketError (args : list value)
| LibraryError (e : library_error).

Definition SocketServer_TCPServer (env : bind_outcome)
  (address port handler : value) : M state socket_server :=
  match env with
  | Bound => ret (mkSocketServer (address, port) handler)
  | SocketError args => raise (socket_error args)
  | LibraryError e => raise (exn_of_library_error e)
  end.

(** [error_number, error_message = ex] *)
Definition unpack2 (args : list value) : result (value * value) :=
  match args with
  | [a; b] => Ok (a, b)
  | _ => Raise ValueError
  end.

Section Methods.
Variable repr : string.

Definition start (env : bind_outcome) : M state value :=
  let! self := get_self in
  if __online self then
    let! msg := lift (Text.format "%s | '%s' server is already online!"
                        ["TCPServer"; repr]) in
    raise (ServerOperationError msg)
  else
    try_except
      (let! server :=
         SocketServer_TCPServer env (__address self) (__port self)
           (__handler self) in
       modify_self (with_server (Some server));;
       modify_self (with_worker (Some (daemon_thread server)));;
       modify_self (with_online true);;
       let! handler_name := lift (name_of (__handler self)) in
       host_action
         (log_formatted
            "%s | Server successfully started on '%s' address and '%s' port using '%s' requests handler!"
            ["TCPServer"; str (__address self); str (__port self);
             handler_name]
            (Some siInfo));;
       ret (VBool true))
      (fun ex =>
         match ex with
         | socket_error args =>
             Some
               (let! p := lift (unpack2 args) in
                let error_number := fst p in
                if eq_int error_number 10048 then
                  host_action
                    (log_formatted
                       "%s | Cannot start server, a connection is already opened on port '%s'!"
                       ["TCPServer"; repr; str (__port self)]
                       (Some siWarning));;
                  ret VNone
                else raise (socket_error []))
         | _ => None
         end).

Definition stop : M state value :=
  let! self := get_self in
  if negb (__online self) then
    let! msg := lift (Text.format "%s | '%s' server is not online!"
                        ["TCPServer"; repr]) in
    raise (ServerOperationError msg)
  else
    (* [self.__server.shutdown()] *)
    let! _ := lift (match __server self with
                    | Some _ => Ok tt
                    | None => Raise AttributeError
                    end) in
    modify_self (with_server None);;
    modify_self (with_worker None);;
    modify_self (with_online false);;
    host_action
      (log_formatted "%s | Server successfully stopped!" ["TCPServer"]
         (Some siInfo));;
    ret (VBool true).
End Methods.

End TCPServer.

(** ** Definitions used to state the properties *)

(** The chunks received before the peer closes: those before the first
    empty read. *)
Fixpoint received_before_close (conn : list string) : list string :=
  match conn with
  | [] => []
  | data :: conn' =>
      if Py.truthy data then data :: received_before_close conn' else []
  end.

(** No chunk of [conn] holds [requestEnd] whole, and neither does the
    concatenation of two consecutive chunks; [previous] is the chunk read
    before [conn] (the empty string when there is none). *)
Fixpoint requestEnd_hidden (previous : string) (conn : list string) : bool :=
  match conn with
  | [] => true
  | data :: conn' =>
      negb (Py.contains PythonStackDataRequestsHandler.requestEnd data)
      && negb (Py.contains PythonStackDataRequestsHandler.requestEnd
                 (previous ++ data))
      && requestEnd_hidden data conn'
  end.

(** The line feed and the double quote, and the payloads of the module's
    documentation. *)
Definition LF : string := String (ascii_of_nat 10) EmptyString.
Definition DQ : string := String (ascii_of_nat 34) EmptyString.

Definition python_payload : string :=
  "import sys" ++ LF ++ "print(sys.maxsize)".

Definition jscript_code : string := " LogMessage(" ++ DQ ++ "Pouet" ++ DQ ++ ")".

Definition jscript_request : string := "JScript |" ++ jscript_code.

(** A string of white space only; a string without line feed. *)
Fixpoint all_space (s : string) : bool :=
  match s with
  | EmptyString => true
  | String c s' => Text.isspace c && all_space s'
  end.

Fixpoint single_line (s : string) : bool :=
  match s with
  | EmptyString => true
  | String c s' => negb (Nat.eqb (nat_of_ascii c) 10) && single_line s'
  end.

(** What [processData] does with a request tagged with a language: the
    code is run, and the value it returns is logged. *)
Definition run_tagged (h : host) (code language : string) : action unit :=
  let! value := call_ExecuteScriptCode h code language in
  call_LogMessage
    (Constants.name ++ " | Request return value: '" ++ value ++ "'.")
    (Some siVerbose).

(** The four handlers, and the [processData] of each. *)
Inductive handler : Type :=
| Echo
| LoggingStack
| DefaultStack
| PythonStack.

Definition processData (h : host) (variant : handler) (w : world)
  : result value * world :=
  match variant with
  | Echo => EchoRequestsHandler.processData w
  | LoggingStack => LoggingStackDataRequestsHandler.processData w
  | DefaultStack => DefaultStackDataRequestsHandler.processData h w
  | PythonStack => PythonStackProcess.processData h w
  end.

(** A host that answers every call with the same value. *)
Definition plain_host : host :=
  mkHost (fun _ _ => false) (fun _ _ => Ok "None") (fun _ _ _ => Ok "None").

(** The same host with one existing file. *)
Definition host_with_file (file : string) : host :=
  mkHost (fun _ path => String.eqb path file)
    (fun _ _ => Ok "None") (fun _ _ _ => Ok "None").

(** ** The functions of the module

    [Runtime] holds the current server and the settings; the status file
    ([tcpserver.ini]) is the dictionary of the options of its [info]
    section, or [None] before it is first written.  [ticks] counts the
    readings of the clock made so far. *)

Module Plugin.

(** A [dict] with string keys, as the keyword arguments of
    [_setServerStatusFile] and the options of the status file. *)
Definition dict : Type := list (string * value).

Fixpoint dict_get (d : dict) (k : string) : option value :=
  match d with
  | [] => None
  | (k', v) :: d' => if String.eqb k' k then Some v else dict_get d' k
  end.

(** [d[k] = v] *)
Fixpoint dict_set (d : dict) (k : string) (v : value) : dict :=
  match d with
  | [] => [(k, v)]
  | (k', v') :: d' =>
      if String.eqb k' k then (k, v) :: d' else (k', v') :: dict_set d' k v
  end.

(** [d.setdefault(k, v)] *)
Definition setdefault (d : dict) (k : string) (v : value) : value * dict :=
  match dict_get d k with
  | Some x => (x, d)
  | None => (v, dict_set d k v)
  end.

(** [str.lower], which [ConfigParser] applies to the name of an option. *)
Definition lower_char (c : ascii) : ascii :=
  let n := nat_of_ascii c in
  if Nat.leb 65 n && Nat.leb n 90 then ascii_of_nat (n + 32) else c.

Fixpoint lower (s : string) : string :=
  match s with
  | EmptyString => EmptyString
  | String c s' => String (lower_char c) (lower s')
  end.

Record state : Type := mkState {
  Runtime_server : option TCPServer.t;
  Runtime_address : value;
  Runtime_port : value;
  Runtime_requestsHandler : value;
  app_calls : list host_call;
  status_file : option dict;
  ticks : nat
}.

Definition with_server (v : option TCPServer.t) (s : state) : state :=
  mkState v (Runtime_address s) (Runtime_port s) (Runtime_requestsHandler s)
    (app_calls s) (status_file s) (ticks s).

Definition with_calls (v : list host_call) (s : state) : state :=
  mkState (Runtime_server s) (Runtime_address s) (Runtime_port s)
    (Runtime_requestsHandler s) v (status_file s) (ticks s).

Definition with_status_file (v : option dict) (s : state) : state :=
  mkState (Runtime_server s) (Runtime_address s) (Runtime_port s)
    (Runtime_requestsHandler s) (app_calls s) v (ticks s).

Definition with_ticks (v : nat) (s : state) : state :=
  mkState (Runtime_server s) (Runtime_address s) (Runtime_port s)
    (Runtime_requestsHandler s) (app_calls s) (status_file s) v.

Definition get : M state state := fun s => (Ok s, s).

Definition modify (f : state -> state) : M state unit :=
  fun s => (Ok tt, f s).

(** A host call made from the module. *)
Definition app {A} (a : action A) : M state A :=
  fun s => let (r, cs) := a (app_calls s) in (r, with_calls cs s).

(** A method called on [Runtime.server]: it works on the instance that
    [Runtime] holds. *)
Definition on_server {A} (m : M TCPServer.state A) : M state A :=
  fun s =>
    match Runtime_server s with
    | Some self =>
        let (r, st) := m (self, app_calls s) in
        (r, with_calls (snd st) (with_server (Some (fst st)) s))
    | None => (Raise AttributeError, s)
    end.

Section Functions.
Variable repr : string.
(** [int(time.time())] at each reading of the clock. *)
Variable clock : nat -> Z.

Definition time_now : M state Z :=
  fun s => (Ok (clock (ticks s)), with_ticks (S (ticks s)) s).

(** [for key, val in kwargs.items(): config.set(sect, key, val)] *)
Definition config_of (kwargs : dict) : dict :=
  fold_left (fun config kv => dict_set config (lower (fst kv)) (snd kv))
    kwargs [].

Definition _setServerStatusFile (kwargs : dict) : M state value :=
  let (active, kwargs) := setdefault kwargs "active" (VInt 0) in
  let kwargs := dict_set kwargs "active" active in
  let! now := time_now in
  let kwargs := dict_set kwargs "touched" (VInt now) in
  modify (with_status_file (Some (config_of kwargs)));;
  ret (VBool true).

Definition _getServer (address port requestsHandler : value)
  : M state TCPServer.t :=
  lift (TCPServer.__init__ address port requestsHandler).

Definition _startServer (env : TCPServer.bind_outcome) : M state value :=
  let! s := get in
  if match Runtime_server s with
     | Some self => TCPServer.online_get self
     | None => false
     end
  then
    app (log_formatted "%s | The server is already online!" [Constants.name]
           (Some siWarning));;
    ret VNone
  else
    let! self :=
      _getServer (Runtime_address s) (Runtime_port s)
        (Runtime_requestsHandler s) in
    modify (with_server (Some self));;
    let! _ := on_server (TCPServer.start repr env) in
    let! _ :=
      _setServerStatusFile
        [("active", VInt 1); ("address", Runtime_address s);
         ("port", Runtime_port s); ("handler", Runtime_requestsHandler s)] in
    ret (VBool true).

Definition _stopServer : M state value :=
  let! s := get in
  if match Runtime_server s with
     | Some self => negb (TCPServer.online_get self)
     | None => false
     end
  then
    app (log_formatted "%s | The server is not online!" [Constants.name]
           (Some siWarning));;
    ret VNone
  else
    let! _ :=
      match Runtime_server s with
      | Some _ => on_server (TCPServer.stop repr)
      | None => ret VNone
      end in
    let! _ := _setServerStatusFile [("active", VInt 0)] in
    ret (VBool true).

Definition _restartServer (env : TCPServer.bind_outcome) : M state value :=
  let! s := get in
  let! _ :=
    match Runtime_server s with
    | Some self =>
        if TCPServer.online_get self then _stopServer else ret (VBool false)
    | None => ret VNone
    end in
  let! _ := _startServer env in
  ret (VBool true).
End Functions.

End Plugin.

(** ** Further definitions used to state properties *)

(** The language-tagged code the host was asked to run, oldest first. *)
Fixpoint executed (cs : list host_call) : list (string * string) :=
  match cs with
  | [] => []
  | ExecuteScriptCode code language :: cs' => (code, language) :: executed cs'
  | _ :: cs' => executed cs'
  end.


(** The instance attributes agree: an online server has its listening
    socket and the thread that serves it, an offline one has neither. *)
Definition consistent (self : TCPServer.t) : Prop :=
  match TCPServer.__server self, TCPServer.__worker self,
        TCPServer.__online self with
  | Some server, Some (TCPServer.daemon_thread target), true =>
      target = server
      /\ server = TCPServer.mkSocketServer
                    (TCPServer.__address self, TCPServer.__port self)
                    (TCPServer.__handler self)
  | None, None, false => True
  | _, _, _ => False
  end.

(** The values the setters of the server accept. *)
Definition address_like (v : value) : bool :=
  match v with VNone | VStr _ | VUnicode _ => true | _ => false end.

Definition port_like (v : value) : bool :=
  match v with VNone | VInt _ => true | _ => false end.

Definition handler_like (v : value) : bool :=
  match v with
  | VNone => true
  | VClass object_ => false
  | VClass _ => true
  | _ => false
  end.

(** No server is serving. *)
Definition nothing_online (s : Plugin.state) : Prop :=
  match Plugin.Runtime_server s with
  | Some self => TCPServer.online_get self = false
  | None => True
  end.

(** What [processData] of the default handler goes on with once the blob
    at the front of the stack has been dealt with: the rest of the stack,
    or nothing when the step raised. *)
Definition then_drain (h : host) (stack : list string)
  (step : result unit * list host_call) : result value * world :=
  match step with
  | (Ok _, cs) =>
      DefaultStackDataRequestsHandler.processData h (mkWorld stack cs)
  | (Raise e, cs) => (Raise e, mkWorld stack cs)
  end.

(** The listening socket, the serving thread and the online flag of an
    instance agree. *)
Definition attached (self : TCPServer.t) : Prop :=
  match TCPServer.__server self, TCPServer.__worker self,
        TCPServer.__online self with
  | Some server, Some (TCPServer.daemon_thread target), true =>
      target = server
  | None, None, false => True
  | _, _, _ => False
  end.

(** ** Python's list subscripts *)

Section Subscripts.
Context {A : Type}.
Implicit Types (l : list A) (a b : A).

Lemma llen_app l a : Py.llen (l ++ [a]) = Py.llen l + 1.
Proof. unfold Py.llen. rewrite length_app. simpl. lia. Qed.

Lemma llen_nonneg l : 0 <= Py.llen l.
Proof. unfold Py.llen. lia. Qed.

(** [[a][-2]] is out of range. *)
Lemma getitem_singleton_minus2 a : Py.getitem [a] (-2) = Raise IndexError.
Proof. reflexivity. Qed.

Lemma position_minus1 l a :
  Py.position (l ++ [a]) (-1) = Ok (List.length l).
Proof.
  unfold Py.position. rewrite llen_app.
  pose proof (llen_nonneg l) as Hl.
  replace (-1 <? 0) with true by reflexivity.
  destruct (Py.llen l + 1 + -1 <? 0) eqn:E1; [apply Z.ltb_lt in E1; lia|].
  destruct (Py.llen l + 1 <=? Py.llen l + 1 + -1) eqn:E2;
    [apply Z.leb_le in E2; lia|].
  simpl. f_equal. unfold Py.llen. lia.
Qed.

Lemma position_minus2 l a b :
  Py.position (l ++ [a; b]) (-2) = Ok (List.length l).
Proof.
  unfold Py.position.
  replace (l ++ [a; b])%list with ((l ++ [a]) ++ [b])%list
    by (rewrite <- app_assoc; reflexivity).
  rewrite !llen_app.
  pose proof (llen_nonneg l) as Hl.
  replace (-2 <? 0) with true by reflexivity.
  destruct (Py.llen l + 1 + 1 + -2 <? 0) eqn:E1; [apply Z.ltb_lt in E1; lia|].
  destruct (Py.llen l + 1 + 1 <=? Py.llen l + 1 + 1 + -2) eqn:E2;
    [apply Z.leb_le in E2; lia|].
  simpl. f_equal. unfold Py.llen. lia.
Qed.

Lemma getitem_minus1 l a : Py.getitem (l ++ [a]) (-1) = Ok a.
Proof.
  unfold Py.getitem. rewrite position_minus1. simpl.
  rewrite nth_error_app2 by lia. rewrite Nat.sub_diag. reflexivity.
Qed.

Lemma getitem_minus2 l a b : Py.getitem (l ++ [a; b]) (-2) = Ok a.
Proof.
  unfold Py.getitem. rewrite position_minus2. simpl.
  rewrite nth_error_app2 by lia. rewrite Nat.sub_diag. reflexivity.
Qed.

Lemma update_app l a b c :
  Py.update (l ++ [a; b]) (List.length l) c = (l ++ [c; b])%list.
Proof. induction l as [|x l IH]; simpl; [reflexivity | now rewrite IH]. Qed.

Lemma setitem_minus2 l a b c :
  Py.setitem (l ++ [a; b]) (-2) c = Ok (l ++ [c; b])%list.
Proof.
  unfold Py.setitem. rewrite position_minus2. simpl. now rewrite update_app.
Qed.

Lemma pop_app l a : Py.pop (l ++ [a]) = Ok (l, a).
Proof.
  unfold Py.pop. rewrite rev_app_distr. simpl. now rewrite rev_involutive.
Qed.
End Subscripts.

(** ** The read loop of the Python handler *)

Section ReadLoop.
Import PythonStackDataRequestsHandler.

(** The first chunk of a connection, when it is not empty and does not
    hold the terminator whole, is appended to the empty [allData], and
    [allData[-2]] is then out of range. *)
Lemma loop_body_first_chunk data :
  Py.truthy data = true ->
  Py.contains requestEnd data = false ->
  loop_body [] data = Raise IndexError.
Proof.
  intros Ht Hc. unfold loop_body. rewrite Ht, Hc. reflexivity.
Qed.

(** With a chunk already accumulated, a pass looks at the new chunk and
    at the last two chunks, and at nothing else. *)
Lemma loop_body_snoc pre p data :
  Py.truthy data = true ->
  loop_body (pre ++ [p]) data =
  if Py.contains requestEnd data then
    Ok (Break RequestEndInData
          (pre ++ [p; Py.slice_to data (Py.find data requestEnd)]))
  else if Py.contains requestEnd (p ++ data) then
    Ok (Break RequestEndInTail
          (pre ++ [Py.slice_to (p ++ data) (Py.find (p ++ data) requestEnd)]))
  else Ok (Continue (pre ++ [p; data])).
Proof.
  intros Ht. unfold loop_body. rewrite Ht. simpl negb. cbv iota.
  destruct (Py.contains requestEnd data) eqn:Hc.
  - unfold Py.append. rewrite <- app_assoc. reflexivity.
  - unfold Py.append. rewrite <- app_assoc. simpl app.
    replace (Py.llen (pre ++ [p; data]) >=? 1) with true.
    2:{ symmetry. apply Z.geb_le.
        replace (pre ++ [p; data])%list with ((pre ++ [p]) ++ [data])%list
          by (rewrite <- app_assoc; reflexivity).
        rewrite llen_app. pose proof (llen_nonneg (pre ++ [p])). lia. }
    rewrite getitem_minus2. simpl rbind.
    replace (pre ++ [p; data])%list with ((pre ++ [p]) ++ [data])%list
      by (rewrite <- app_assoc; reflexivity).
    rewrite getitem_minus1. simpl rbind.
    destruct (Py.contains requestEnd (p ++ data)) eqn:Hc2; [|reflexivity].
    rewrite <- app_assoc. simpl app.
    rewrite setitem_minus2. simpl rbind.
    replace (pre ++ [Py.slice_to (p ++ data) (Py.find (p ++ data) requestEnd); data])%list
      with ((pre ++ [Py.slice_to (p ++ data) (Py.find (p ++ data) requestEnd)]) ++ [data])%list
      by (rewrite <- app_assoc; reflexivity).
    rewrite pop_app. reflexivity.
Qed.

Lemma loop_body_closed allData data :
  Py.truthy data = false -> loop_body allData data = Ok (Break PeerClosed allData).
Proof. intros Ht. unfold loop_body. now rewrite Ht. Qed.

(** A pass that goes on has appended the chunk. *)
Lemma loop_body_continue allData data out :
  loop_body allData data = Ok (Continue out) ->
  Py.truthy data = true /\ out = (allData ++ [data])%list.
Proof.
  unfold loop_body.
  destruct (Py.truthy data); simpl; [|discriminate].
  destruct (Py.contains requestEnd data); [discriminate|].
  destruct (Py.llen (Py.append allData data) >=? 1).
  - destruct (Py.getitem (Py.append allData data) (-2)); simpl; [|discriminate].
    destruct (Py.getitem (Py.append allData data) (-1)); simpl; [|discriminate].
    destruct (Py.contains requestEnd (a ++ a0)).
    + destruct (Py.setitem _ _ _); simpl; [|discriminate].
      destruct (Py.pop _); simpl; discriminate.
    + intros [= <-]. auto.
  - intros [= <-]. auto.
Qed.

(** A pass that ends on a closed peer has left [allData] alone. *)
Lemma loop_body_peer_closed allData data out :
  loop_body allData data = Ok (Break PeerClosed out) ->
  Py.truthy data = false /\ out = allData.
Proof.
  unfold loop_body.
  destruct (Py.truthy data); simpl; [|intros [= <-]; auto].
  destruct (Py.contains requestEnd data); [discriminate|].
  destruct (Py.llen (Py.append allData data) >=? 1).
  - destruct (Py.getitem (Py.append allData data) (-2)); simpl; [|discriminate].
    destruct (Py.getitem (Py.append allData data) (-1)); simpl; [|discriminate].
    destruct (Py.contains requestEnd (a ++ a0)).
    + destruct (Py.setitem _ _ _); simpl; [|discriminate].
      destruct (Py.pop _); simpl; discriminate.
    + discriminate.
  - discriminate.
Qed.

(** When the loop ends on a closed peer, [allData] has grown by exactly
    the chunks received before the close. *)
Lemma read_loop_peer_closed conn : forall allData out,
  read_loop allData conn = Ok (PeerClosed, out) ->
  out = (allData ++ received_before_close conn)%list.
Proof.
  induction conn as [|data conn IH]; intros allData out H.
  - simpl in H. injection H as <-. now rewrite app_nil_r.
  - simpl in H.
    destruct (loop_body allData data) as [[why o|o]|e] eqn:Hb;
      simpl in H; [| |discriminate].
    + injection H as -> ->.
      apply loop_body_peer_closed in Hb as [Ht ->].
      simpl. rewrite Ht. now rewrite app_nil_r.
    + apply loop_body_continue in Hb as [Ht ->].
      apply IH in H. simpl. rewrite Ht. rewrite H, <- app_assoc. reflexivity.
Qed.
End ReadLoop.

Section PythonStackHandle.
Import PythonStackDataRequestsHandler.

(** On a connection where the terminator is never whole in a chunk or in
    two consecutive chunks, the loop started with a chunk in [allData]
    reads up to the close and keeps every chunk. *)
Lemma read_loop_hidden conn : forall pre p,
  requestEnd_hidden p conn = true ->
  read_loop (pre ++ [p]) conn =
  Ok (PeerClosed, ((pre ++ [p]) ++ received_before_close conn)%list).
Proof.
  induction conn as [|data conn IH]; intros pre p H.
  - simpl. now rewrite app_nil_r.
  - simpl in H. apply andb_true_iff in H as [H Hrest].
    apply andb_true_iff in H as [Hd Ht].
    apply negb_true_iff in Hd, Ht.
    simpl. destruct (Py.truthy data) eqn:Hdata.
    + rewrite loop_body_snoc by assumption. rewrite Hd, Ht. simpl.
      replace (pre ++ [p; data])%list with ((pre ++ [p]) ++ [data])%list
        by (rewrite <- app_assoc; reflexivity).
      rewrite IH by assumption. rewrite <- !app_assoc. reflexivity.
    + rewrite loop_body_closed by assumption. simpl. now rewrite app_nil_r.
Qed.

Lemma last_snoc (pre : list string) p d : last (pre ++ [p]) d = p.
Proof. apply last_last. Qed.
End PythonStackHandle.

(** C1. The terminator split over two reads: the first read is then a chunk
    that is not empty and does not hold the terminator whole, and for every
    such first chunk [handle] raises [IndexError] ([allData[-2]] on a list of
    one chunk) and pushes nothing on the requests stack, whatever is read
    afterwards. *)
Theorem handle_first_chunk_without_requestEnd :
  forall data conn w,
    Py.truthy data = true ->
    Py.contains PythonStackDataRequestsHandler.requestEnd data = false ->
    PythonStackDataRequestsHandler.handle (data :: conn) w
    = (Raise IndexError, w).
Proof.
  intros data conn w Ht Hc.
  unfold PythonStackDataRequestsHandler.handle. simpl.
  now rewrite loop_body_first_chunk.
Qed.

(** The documented payload followed by the terminator, cut between the two
    reads at each offset of the terminator. *)
Lemma handle_first_chunk_without_requestEnd_witness :
  let w := mkWorld ["earlier"] [] in
  PythonStackDataRequestsHandler.handle [python_payload; "<!RE>"] w
  = (Raise IndexError, w)
  /\ PythonStackDataRequestsHandler.handle
       [python_payload ++ "<"; "!RE>"] w = (Raise IndexError, w)
  /\ PythonStackDataRequestsHandler.handle
       [python_payload ++ "<!"; "RE>"] w = (Raise IndexError, w)
  /\ PythonStackDataRequestsHandler.handle
       [python_payload ++ "<!R"; "E>"] w = (Raise IndexError, w)
  /\ PythonStackDataRequestsHandler.handle
       [python_payload ++ "<!RE"; ">"] w = (Raise IndexError, w).
Proof.
  intros w.
  pose proof (fun data conn =>
                handle_first_chunk_without_requestEnd data conn w) as H.
  split; [apply H; reflexivity|].
  split; [apply H; reflexivity|].
  split; [apply H; reflexivity|].
  split; apply H; reflexivity.
Defined.

(** C6. After a chunk, the loop looks for the terminator in that chunk and
    in the concatenation of the last two chunks only; so on a connection
    where no chunk and no two consecutive chunks hold the terminator whole,
    the loop never leaves at the terminator: it either reads up to the close
    of the peer, keeping every chunk received, or (with nothing accumulated
    before a first chunk that is not empty) raises. *)
Theorem requestEnd_hidden_not_detected :
  forall allData conn,
    requestEnd_hidden (last allData "") conn = true ->
    (forall pre p data,
        Py.truthy data = true ->
        match PythonStackDataRequestsHandler.loop_body (pre ++ [p]) data with
        | Ok (PythonStackDataRequestsHandler.Break _ _) =>
            Py.contains PythonStackDataRequestsHandler.requestEnd data
            || Py.contains PythonStackDataRequestsHandler.requestEnd (p ++ data)
            = true
        | Ok (PythonStackDataRequestsHandler.Continue _) =>
            Py.contains PythonStackDataRequestsHandler.requestEnd data
            || Py.contains PythonStackDataRequestsHandler.requestEnd (p ++ data)
            = false
        | Raise _ => False
        end)
    /\ match PythonStackDataRequestsHandler.read_loop allData conn with
       | Ok (why, out) =>
           why = PythonStackDataRequestsHandler.PeerClosed
           /\ out = (allData ++ received_before_close conn)%list
       | Raise e =>
           e = IndexError /\ allData = []
           /\ exists data conn', conn = data :: conn' /\ Py.truthy data = true
       end.
Proof.
  intros allData conn H. split.
  - intros pre p data Ht. rewrite loop_body_snoc by assumption.
    destruct (Py.contains _ data); [reflexivity|].
    destruct (Py.contains _ (p ++ data)); reflexivity.
  - destruct allData as [|a allData] using rev_ind.
    + destruct conn as [|data conn]; [simpl; auto|].
      simpl in H. apply andb_true_iff in H as [H _].
      apply andb_true_iff in H as [Hd _]. apply negb_true_iff in Hd.
      simpl. destruct (Py.truthy data) eqn:Ht.
      * rewrite loop_body_first_chunk by assumption. simpl.
        repeat split. exists data, conn. auto.
      * rewrite loop_body_closed by assumption. simpl. auto.
    + rewrite last_snoc in H. rewrite read_loop_hidden by assumption. auto.
Qed.

(** The terminator spread over three chunks, behind one chunk already
    accumulated, and at the start of a connection. *)
Lemma requestEnd_hidden_not_detected_witness :
  PythonStackDataRequestsHandler.read_loop ["x"] ["ab<!"; "R"; "E>"]
  = Ok (PythonStackDataRequestsHandler.PeerClosed, ["x"; "ab<!"; "R"; "E>"])
  /\ PythonStackDataRequestsHandler.read_loop [] ["ab<!"; "R"; "E>"]
     = Raise IndexError.
Proof.
  pose proof (requestEnd_hidden_not_detected ["x"] ["ab<!"; "R"; "E>"]
                eq_refl) as [_ H1].
  pose proof (requestEnd_hidden_not_detected [] ["ab<!"; "R"; "E>"]
                eq_refl) as [_ H2].
  split.
  - destruct (PythonStackDataRequestsHandler.read_loop ["x"] _)
      as [[why out]|e].
    + destruct H1 as [-> ->]. reflexivity.
    + destruct H1 as [_ [H1 _]]. discriminate H1.
  - destruct (PythonStackDataRequestsHandler.read_loop [] _)
      as [[why out]|e] eqn:E.
    + vm_compute in E. discriminate E.
    + destruct H2 as [-> _]. reflexivity.
Defined.

(** ** Logging the value a request returns *)

Lemma format_return_value name value :
  Text.format "%s | Request return value: '%s'." [name; value]
  = Ok (name ++ " | Request return value: '" ++ value ++ "'.").
Proof. reflexivity. Qed.

Lemma run_and_log h code language cs :
  bind (call_ExecuteScriptCode h code language)
    (fun value =>
       log_formatted "%s | Request return value: '%s'."
         [Constants.name; value] (Some siVerbose)) cs
  = run_tagged h code language cs.
Proof.
  unfold run_tagged, bind, call_ExecuteScriptCode.
  destruct (ExecuteScriptCode_value h cs code language); reflexivity.
Qed.

(** The first call [run_tagged] makes is [ExecuteScriptCode]. *)
Lemma run_tagged_calls h code language cs :
  exists rest,
    snd (run_tagged h code language cs)
    = (cs ++ ExecuteScriptCode code language :: rest)%list.
Proof.
  unfold run_tagged, bind, call_ExecuteScriptCode.
  destruct (ExecuteScriptCode_value h cs code language) as [v|e]; simpl.
  - eexists. rewrite <- app_assoc. reflexivity.
  - exists []. reflexivity.
Qed.

Lemma drain_calls_extend body blob cs :
  calls (snd (drain body [blob] cs)) = snd (body blob cs).
Proof.
  simpl. destruct (body blob cs) as [[u|e] cs']; reflexivity.
Qed.

(** C10. A peer that closes after sending data without the terminator: the
    read loop does not get to the close.  On a connection that delivers at
    least one chunk before the close and never shows the terminator,
    [handle] raises [IndexError] at the first chunk and pushes nothing,
    where the concatenation of the chunks received was to be pushed. *)
Theorem handle_raises_when_peer_closes_after_data :
  forall conn w,
    received_before_close conn <> [] ->
    requestEnd_hidden "" conn = true ->
    PythonStackDataRequestsHandler.handle conn w = (Raise IndexError, w)
    /\ PythonStackDataRequestsHandler.handle conn w
       <> (Ok (VBool true),
           push_request (Py.join (received_before_close conn)) w).
Proof.
  intros conn w Hrecv Hhidden.
  destruct conn as [|data conn]; [now elim Hrecv|].
  simpl in Hrecv, Hhidden.
  destruct (Py.truthy data) eqn:Ht; [|now elim Hrecv].
  apply andb_true_iff in Hhidden as [Hh _].
  apply andb_true_iff in Hh as [Hd _]. apply negb_true_iff in Hd.
  assert (H : PythonStackDataRequestsHandler.handle (data :: conn) w
              = (Raise IndexError, w)).
  { unfold PythonStackDataRequestsHandler.handle. simpl.
    now rewrite loop_body_first_chunk. }
  split; [exact H|]. rewrite H. discriminate.
Qed.

(** A client that sends two chunks and closes. *)
Lemma handle_raises_when_peer_closes_after_data_witness :
  PythonStackDataRequestsHandler.handle ["import sys"; "print(1)"; ""]
    (mkWorld [] [])
  = (Raise IndexError, mkWorld [] []).
Proof.
  apply (handle_raises_when_peer_closes_after_data
           ["import sys"; "print(1)"; ""] (mkWorld [] []));
    [discriminate | reflexivity].
Defined.

(** X19. A client that connects and closes without sending anything (the
    first read is empty): [handle] returns [True] and pushes the empty
    string as a blob, and the next [processData] of the Python handler, on
    a stack that was empty before, passes the empty string to
    [ExecuteScriptCode] as Python code. *)
Theorem python_empty_connection_runs_empty_code :
  forall conn w,
    received_before_close conn = [] ->
    PythonStackDataRequestsHandler.handle conn w
    = (Ok (VBool true), push_request "" w)
    /\ (requestsStack w = [] ->
        forall h, exists rest,
          calls (snd (PythonStackProcess.processData h
                        (snd (PythonStackDataRequestsHandler.handle conn w))))
          = (calls w ++ ExecuteScriptCode "" "Python" :: rest)%list).
Proof.
  intros conn w Hrecv.
  assert (Hh : PythonStackDataRequestsHandler.handle conn w
               = (Ok (VBool true), push_request "" w)).
  { destruct conn as [|data conn]; [reflexivity|].
    simpl in Hrecv. destruct (Py.truthy data) eqn:Ht; [discriminate|].
    unfold PythonStackDataRequestsHandler.handle. simpl.
    now rewrite loop_body_closed. }
  split; [exact Hh|].
  intros Hw h. rewrite Hh.
  unfold PythonStackProcess.processData, push_request, Py.append.
  cbn [snd requestsStack calls]. rewrite Hw. cbn [app].
  rewrite drain_calls_extend.
  unfold PythonStackProcess.body. rewrite run_and_log.
  apply run_tagged_calls.
Qed.

Lemma python_empty_connection_runs_empty_code_witness :
  PythonStackDataRequestsHandler.handle [] (mkWorld [] [])
  = (Ok (VBool true), mkWorld [""] [])
  /\ exists rest,
      calls (snd (PythonStackProcess.processData plain_host
                    (snd (PythonStackDataRequestsHandler.handle []
                            (mkWorld [] [])))))
      = ExecuteScriptCode "" "Python" :: rest.
Proof.
  destruct (python_empty_connection_runs_empty_code [] (mkWorld [] [])
              eq_refl) as [Hh Hcalls].
  split; [exact Hh | exact (Hcalls eq_refl plain_host)].
Defined.

(** ** The pattern of a tagged request *)

Section Pattern.

Lemma prefix_app (p s : string) : prefix p (p ++ s) = true.
Proof.
  induction p as [|c p IH]; simpl.
  - now destruct s.
  - destruct (ascii_dec c c) as [_|n]; [assumption | now elim n].
Qed.

Lemma drop_app (p s : string) : Text.drop (String.length p) (p ++ s) = s.
Proof. induction p as [|c p IH]; simpl; [reflexivity | assumption]. Qed.

Lemma dot_star_single_line s : single_line s = true -> Re.dot_star s = s.
Proof.
  induction s as [|c s IH]; simpl; [reflexivity|].
  intros H. apply andb_true_iff in H as [Hc Hs].
  apply negb_true_iff in Hc. rewrite Hc. now rewrite IH.
Qed.

(** White space followed by the bar: [\s*] stops in front of the bar. *)
Lemma spaces_then_bar {R} (k : string -> option R) ws rest r :
  all_space ws = true ->
  k rest = Some r ->
  Re.spaces (Re.literal "|" k) (ws ++ "|" ++ rest) = Some r.
Proof.
  intros Hws Hk. induction ws as [|c ws IH]; simpl.
  - change (String "|" rest) with ("|" ++ rest).
    unfold Re.literal. now rewrite prefix_app, drop_app.
  - simpl in Hws. apply andb_true_iff in Hws as [Hc Hws].
    rewrite Hc. simpl in IH. now rewrite (IH Hws).
Qed.

(** The language of a match is the language asked for. *)
Lemma match_language lang data m :
  Re.match_ lang data = Some m -> Re.language m = lang.
Proof.
  unfold Re.match_.
  set (k := fun rest => Some (Re.mkGroups lang (Re.dot_star rest))).
  assert (Hk : forall s m, k s = Some m -> Re.language m = lang)
    by (intros s m0 [= <-]; reflexivity).
  assert (Hlit : forall l (k' : string -> option Re.groups),
             (forall s m, k' s = Some m -> Re.language m = lang) ->
             forall s m, Re.literal l k' s = Some m -> Re.language m = lang).
  { intros l k' Hk' s m0. unfold Re.literal.
    destruct (prefix l s); [apply Hk' | discriminate]. }
  assert (Hsp : forall (k' : string -> option Re.groups),
             (forall s m, k' s = Some m -> Re.language m = lang) ->
             forall s m, Re.spaces k' s = Some m -> Re.language m = lang).
  { intros k' Hk' s. induction s as [|c s IH]; intros m0; simpl.
    - apply Hk'.
    - destruct (Text.isspace c); [|apply Hk'].
      destruct (Re.spaces k' s) eqn:E.
      + intros [= <-]. now apply IH.
      + apply Hk'. }
  apply Hsp, Hlit, Hsp, Hlit, Hk.
Qed.
End Pattern.

(** A request [tag ws | rest], for each of the languages: the pattern of
    the tag matches with [rest] up to its first line feed as the code, and
    the patterns of the languages listed before the tag do not match. *)
Lemma for_language_tagged h tag ws rest cs :
  In tag Constants.languages ->
  all_space ws = true ->
  DefaultStackDataRequestsHandler.for_language h Constants.languages
    (tag ++ ws ++ "|" ++ rest) cs
  = run_tagged h (Re.dot_star rest) tag cs.
Proof.
  intros Hin Hws.
  assert (Hm : forall t : string,
             match t with String c _ => Text.isspace c = false
                     | EmptyString => False end ->
             Re.match_ t (t ++ ws ++ "|" ++ rest)
             = Some (Re.mkGroups t (Re.dot_star rest))).
  { intros t Ht. unfold Re.match_.
    destruct t as [|c t]; [contradiction|].
    set (k := Re.literal (String c t) _).
    change (String c t ++ ws ++ "|" ++ rest)
      with (String c (t ++ ws ++ "|" ++ rest)).
    cbn [Re.spaces]. rewrite Ht. subst k.
    change (String c (t ++ ws ++ "|" ++ rest))
      with (String c t ++ ws ++ "|" ++ rest).
    unfold Re.literal at 1. rewrite prefix_app, drop_app.
    now apply spaces_then_bar. }
  simpl in Hin.
  destruct Hin as [<-|[<-|[<-|[<-|[<-|[]]]]]];
    cbn [Constants.languages DefaultStackDataRequestsHandler.for_language].
  - rewrite Hm by reflexivity. apply run_and_log.
  - change (Re.match_ "VBScript" ("JScript" ++ ws ++ "|" ++ rest)) with (@None Re.groups).
    rewrite Hm by reflexivity. apply run_and_log.
  - change (Re.match_ "VBScript" ("Python" ++ ws ++ "|" ++ rest)) with (@None Re.groups).
    change (Re.match_ "JScript" ("Python" ++ ws ++ "|" ++ rest)) with (@None Re.groups).
    rewrite Hm by reflexivity. apply run_and_log.
  - change (Re.match_ "VBScript" ("PythonScript" ++ ws ++ "|" ++ rest)) with (@None Re.groups).
    change (Re.match_ "JScript" ("PythonScript" ++ ws ++ "|" ++ rest)) with (@None Re.groups).
    change (Re.match_ "Python" ("PythonScript" ++ ws ++ "|" ++ rest)) with (@None Re.groups).
    rewrite Hm by reflexivity. apply run_and_log.
  - change (Re.match_ "VBScript" ("PerlScript" ++ ws ++ "|" ++ rest)) with (@None Re.groups).
    change (Re.match_ "JScript" ("PerlScript" ++ ws ++ "|" ++ rest)) with (@None Re.groups).
    change (Re.match_ "Python" ("PerlScript" ++ ws ++ "|" ++ rest)) with (@None Re.groups).
    change (Re.match_ "PythonScript" ("PerlScript" ++ ws ++ "|" ++ rest)) with (@None Re.groups).
    rewrite Hm by reflexivity. apply run_and_log.
Qed.

(** The loop over the languages stops at the first one whose pattern
    matches. *)
Lemma for_language_first_match h pre lang post data m cs :
  Forall (fun l => Re.match_ l data = None) pre ->
  Re.match_ lang data = Some m ->
  DefaultStackDataRequestsHandler.for_language h (pre ++ lang :: post) data cs
  = run_tagged h (Re.code m) lang cs.
Proof.
  intros Hpre Hm. induction Hpre as [|l pre Hl _ IH]; simpl.
  - rewrite Hm. rewrite (match_language _ _ _ Hm). apply run_and_log.
  - rewrite Hl. exact IH.
Qed.

(** The code group of the pattern: the text up to the first line feed. *)
Lemma dot_star_first_line rest :
  exists more,
    rest = Re.dot_star rest ++ more
    /\ single_line (Re.dot_star rest) = true
    /\ (more = "" \/ exists more', more = LF ++ more').
Proof.
  induction rest as [|c rest (more & Hr & Hs & Hm)].
  - exists "". simpl. auto.
  - simpl. destruct (Nat.eqb (nat_of_ascii c) 10) eqn:Hc.
    + exists (String c rest). simpl. repeat split. right. exists rest.
      apply Nat.eqb_eq in Hc.
      rewrite <- (ascii_nat_embedding c), Hc. reflexivity.
    + exists more. simpl. rewrite Hc, Hs. repeat split; [|exact Hm].
      now rewrite <- Hr.
Qed.

(** C5, as the code has it.  [processData] of the default handler, on a
    stack with [blob] at its front, deals with [blob] and goes on with the
    rest of the stack.  When the stripped text of [blob] is an existing
    path, the only host call made for it is [ExecuteScript] on that text,
    whether or not the text also has the shape of a tagged request.  When
    it is not, the languages are tried in the order of
    [Constants.languages] and the first whose pattern matches receives the
    code; for a request [tag ws | rest] the code is [rest] up to its first
    line feed, leading space kept, and what follows that line feed is not
    passed; the documented JScript request is run as JScript with the code
    that follows the bar. *)
Theorem processData_dispatch :
  forall h blob stack cs,
    (exists_ h cs (Text.strip blob) = true ->
     DefaultStackDataRequestsHandler.processData h (mkWorld (blob :: stack) cs)
     = then_drain h stack
         (match ExecuteScript_value h cs (Text.strip blob) with
          | Ok _ => Ok tt
          | Raise e => Raise e
          end,
          (cs ++ [ExecuteScript (Text.strip blob)])%list))
    /\ (exists_ h cs (Text.strip blob) = false ->
        (forall pre lang post m,
            Constants.languages = (pre ++ lang :: post)%list ->
            Forall (fun l => Re.match_ l (Text.strip blob) = None) pre ->
            Re.match_ lang (Text.strip blob) = Some m ->
            DefaultStackDataRequestsHandler.processData h
              (mkWorld (blob :: stack) cs)
            = then_drain h stack (run_tagged h (Re.code m) lang cs))
        /\ (forall tag ws rest,
               In tag Constants.languages ->
               all_space ws = true ->
               Text.strip blob = tag ++ ws ++ "|" ++ rest ->
               DefaultStackDataRequestsHandler.processData h
                 (mkWorld (blob :: stack) cs)
               = then_drain h stack
                   (run_tagged h (Re.dot_star rest) tag cs)
               /\ exists more,
                   rest = Re.dot_star rest ++ more
                   /\ single_line (Re.dot_star rest) = true
                   /\ (more = "" \/ exists more', more = LF ++ more'))
        /\ (blob = jscript_request ->
            DefaultStackDataRequestsHandler.processData h
              (mkWorld (blob :: stack) cs)
            = then_drain h stack (run_tagged h jscript_code "JScript" cs))).
Proof.
  intros h blob stack cs.
  assert (Hstep : DefaultStackDataRequestsHandler.processData h
                    (mkWorld (blob :: stack) cs)
                  = then_drain h stack
                      (DefaultStackDataRequestsHandler.body h blob cs)).
  { unfold DefaultStackDataRequestsHandler.processData, then_drain. simpl.
    destruct (DefaultStackDataRequestsHandler.body h blob cs) as [[u|e] cs'];
      reflexivity. }
  assert (Hno : exists_ h cs (Text.strip blob) = false ->
                DefaultStackDataRequestsHandler.body h blob cs
                = DefaultStackDataRequestsHandler.for_language h
                    Constants.languages (Text.strip blob) cs).
  { intros Hex. unfold DefaultStackDataRequestsHandler.body, bind, call_exists.
    now rewrite Hex. }
  assert (Htag : exists_ h cs (Text.strip blob) = false ->
                 forall tag ws rest,
                   In tag Constants.languages ->
                   all_space ws = true ->
                   Text.strip blob = tag ++ ws ++ "|" ++ rest ->
                   DefaultStackDataRequestsHandler.body h blob cs
                   = run_tagged h (Re.dot_star rest) tag cs).
  { intros Hex tag ws rest Hin Hws Hblob.
    now rewrite (Hno Hex), Hblob, for_language_tagged. }
  rewrite Hstep. split; [|intros Hex; split; [|split]].
  - intros Hex. f_equal.
    unfold DefaultStackDataRequestsHandler.body, bind, call_exists.
    rewrite Hex. unfold call_ExecuteScript.
    destruct (ExecuteScript_value h cs (Text.strip blob)); reflexivity.
  - intros pre lang post m Hl Hpre Hm. f_equal.
    rewrite (Hno Hex), Hl. now apply for_language_first_match.
  - intros tag ws rest Hin Hws Hblob. split.
    + f_equal. now apply (Htag Hex tag ws rest).
    + apply dot_star_first_line.
  - intros ->. f_equal.
    rewrite (Htag Hex "JScript" " " jscript_code); try reflexivity.
    simpl. auto.
Qed.

(** A stack that holds a path with the shape of a JScript request, on a
    host where that file exists, and the documented JScript request, on a
    host where it is not a path. *)
Lemma processData_dispatch_witness :
  DefaultStackDataRequestsHandler.processData
    (host_with_file "JScript | run.js")
    (mkWorld [" JScript | run.js "] [])
  = (Ok (VBool true), mkWorld [] [ExecuteScript "JScript | run.js"])
  /\ DefaultStackDataRequestsHandler.processData plain_host
       (mkWorld [jscript_request] [])
     = (Ok (VBool true),
        mkWorld []
          [ExecuteScriptCode jscript_code "JScript";
           LogMessage "TCPServer | Request return value: 'None'."
             (Some siVerbose)]).
Proof.
  split.
  - rewrite (proj1 (processData_dispatch (host_with_file "JScript | run.js")
                      " JScript | run.js " [] []) eq_refl).
    reflexivity.
  - destruct (processData_dispatch plain_host jscript_request [] [])
      as [_ H].
    destruct (H eq_refl) as [_ [_ Hjs]].
    rewrite (Hjs eq_refl). reflexivity.
Defined.

(** C5 as stated fails for a request of several lines: the code passed is
    not everything after the first bar, it ends at the first line feed. *)
Lemma processData_code_ends_at_line_feed :
  ~ (forall h blob tag rest cs,
        In tag Constants.languages ->
        Text.strip blob = tag ++ " |" ++ rest ->
        exists_ h cs (Text.strip blob) = false ->
        executed (calls (snd (DefaultStackDataRequestsHandler.processData h
                                (mkWorld [blob] cs))))
        = (executed cs ++ [(rest, tag)])%list).
Proof.
  intros H.
  specialize (H plain_host ("JScript | a()" ++ LF ++ "b()") "JScript"
                (" a()" ++ LF ++ "b()") []
                (or_intror (or_introl eq_refl)) eq_refl eq_refl).
  vm_compute in H. discriminate H.
Qed.

(** C8. In [processData] of the default handler, a blob whose stripped text
    is not an existing path and matches the pattern of none of the five
    languages is dropped: no host call is made for it, nothing is raised,
    and the call goes on with the rest of the stack as if the blob had not
    been there. *)
Theorem processData_drops_unrecognized :
  forall h blob stack cs,
    exists_ h cs (Text.strip blob) = false ->
    (forall l, In l Constants.languages ->
               Re.match_ l (Text.strip blob) = None) ->
    DefaultStackDataRequestsHandler.body h blob cs = (Ok tt, cs)
    /\ DefaultStackDataRequestsHandler.processData h
         (mkWorld (blob :: stack) cs)
       = DefaultStackDataRequestsHandler.processData h (mkWorld stack cs).
Proof.
  intros h blob stack cs Hex Hnone.
  assert (Hb : DefaultStackDataRequestsHandler.body h blob cs = (Ok tt, cs)).
  { unfold DefaultStackDataRequestsHandler.body, bind, call_exists.
    rewrite Hex. unfold Constants.languages in *. simpl.
    rewrite !Hnone by (simpl; auto 10). reflexivity. }
  split; [exact Hb|].
  unfold DefaultStackDataRequestsHandler.processData. simpl.
  now rewrite Hb.
Qed.

Lemma processData_drops_unrecognized_witness :
  DefaultStackDataRequestsHandler.processData plain_host
    (mkWorld ["Hello World!"; "Python|1"] [])
  = (Ok (VBool true),
     mkWorld []
       [ExecuteScriptCode "1" "Python";
        LogMessage "TCPServer | Request return value: 'None'."
          (Some siVerbose)]).
Proof.
  assert (Hnone : forall l, In l Constants.languages ->
                            Re.match_ l (Text.strip "Hello World!") = None).
  { intros l [<-|[<-|[<-|[<-|[<-|[]]]]]]; reflexivity. }
  rewrite (proj2 (processData_drops_unrecognized plain_host "Hello World!"
                    ["Python|1"] [] eq_refl Hnone)).
  reflexivity.
Defined.

(** ** Draining twice *)

Lemma drain_returns_empty body stack : forall cs v w,
  drain body stack cs = (Ok v, w) -> requestsStack w = [].
Proof.
  induction stack as [|blob stack IH]; intros cs v w; simpl.
  - intros [= _ <-]. reflexivity.
  - destruct (body blob cs) as [[u|e] cs']; [apply IH | discriminate].
Qed.

Lemma drain_empty body w :
  requestsStack w = [] ->
  drain body (requestsStack w) (calls w) = (Ok (VBool true), w).
Proof. destruct w as [stack cs]. simpl. now intros ->. Qed.

Lemma processData_empty h variant w :
  requestsStack w = [] -> exists v, processData h variant w = (Ok v, w).
Proof.
  intros Hw. destruct variant; simpl; eexists;
    first [reflexivity | now apply drain_empty].
Qed.

(** C9, as the code has it.  For every handler, [processData] on an empty
    stack makes no host call, raises nothing and leaves the world as it is.
    For the three draining handlers a call that returns has emptied the
    stack, so a second call right after it is such a call on an empty
    stack.  [processData] of the echo handler never touches the stack: each
    call leaves the world as it is, the stack empty or not. *)
Theorem processData_twice :
  forall h variant w,
    (requestsStack w = [] -> exists v, processData h variant w = (Ok v, w))
    /\ (forall v1 w1,
           processData h variant w = (Ok v1, w1) ->
           (exists v2, processData h variant w1 = (Ok v2, w1))
           /\ (variant <> Echo -> requestsStack w1 = [])
           /\ (variant = Echo -> w1 = w)).
Proof.
  intros h variant w. split; [apply processData_empty|].
  intros v1 w1 H.
  destruct variant; simpl in H.
  - injection H as _ <-. repeat split; [eexists; reflexivity | congruence].
  - pose proof (drain_returns_empty _ _ _ _ _ H) as He.
    repeat split; [now apply processData_empty | auto | discriminate].
  - pose proof (drain_returns_empty _ _ _ _ _ H) as He.
    repeat split; [now apply processData_empty | auto | discriminate].
  - pose proof (drain_returns_empty _ _ _ _ _ H) as He.
    repeat split; [now apply processData_empty | auto | discriminate].
Qed.

Lemma processData_twice_witness :
  (exists v2,
      processData plain_host LoggingStack (mkWorld [] [LogMessage "a" None])
      = (Ok v2, mkWorld [] [LogMessage "a" None]))
  /\ (exists v2,
         processData plain_host Echo (mkWorld ["a"] []) = (Ok v2, mkWorld ["a"] [])).
Proof.
  split.
  - exact (proj1 (proj2 (processData_twice plain_host LoggingStack
                           (mkWorld ["a"] [])) _ _ eq_refl)).
  - exact (proj1 (proj2 (processData_twice plain_host Echo
                           (mkWorld ["a"] [])) _ _ eq_refl)).
Defined.

(** C9 as stated fails for the echo handler: two calls in a row on a stack
    that holds a blob leave the blob there. *)
Lemma processData_twice_echo_keeps_stack :
  ~ (forall h variant w,
        requestsStack
          (snd (processData h variant (snd (processData h variant w)))) = []).
Proof.
  intros H. specialize (H plain_host Echo (mkWorld ["Hello World!"] [])).
  discriminate H.
Qed.

(** ** The server object *)

Section Server.
Import TCPServer.

Lemma port_set_ok self v self' :
  port_set self v = Ok self' ->
  (v = VNone \/ exists z, v = VInt z) /\ self' = with_port v self.
Proof.
  unfold port_set. destruct v; simpl; try discriminate;
    intros [= <-]; split; eauto.
Qed.

Lemma address_set_ok self v self' :
  address_set self v = Ok self' ->
  (v = VNone \/ (exists s, v = VStr s) \/ exists s, v = VUnicode s)
  /\ self' = with_address v self.
Proof.
  unfold address_set. destruct v; simpl; try discriminate;
    intros [= <-]; split; eauto.
Qed.

Lemma handler_set_ok self v self' :
  handler_set self v = Ok self' -> self' = with_handler v self.
Proof.
  unfold handler_set. destruct v as [| | | | | |c]; simpl; try discriminate;
    try (intros [= <-]; reflexivity).
  destruct c; simpl; try discriminate; intros [= <-]; reflexivity.
Qed.

(** What a successful construction leaves in the instance. *)
Lemma init_ok address port handler self :
  __init__ address port handler = Ok self ->
  self = mk address port handler None None false
  /\ (address = VNone \/ (exists s, address = VStr s)
      \/ exists s, address = VUnicode s)
  /\ (port = VNone \/ exists z, port = VInt z).
Proof.
  unfold __init__. cbv zeta.
  destruct (address_set _ address) as [s1|] eqn:Ea; simpl; [|discriminate].
  destruct (port_set _ port) as [s2|] eqn:Ep; simpl; [|discriminate].
  destruct (handler_set _ handler) as [s3|] eqn:Eh; simpl; [|discriminate].
  intros [= <-].
  apply address_set_ok in Ea as [Ha ->].
  apply port_set_ok in Ep as [Hp ->].
  apply handler_set_ok in Eh as ->.
  auto.
Qed.
End Server.

(** C2, as the code has it.  The constructor checks the type of the port
    and not its range: a port that is neither [None] nor an [int] makes the
    construction fail with an [AssertionError]; a constructed server has
    the port it was given, which is [None] or an [int]; and every [int],
    inside 0..65535 or not, is accepted as the port. *)
Theorem init_checks_port_type :
  forall address port handler,
    (port <> VNone -> (forall z, port <> VInt z) ->
     exists attribute,
       TCPServer.__init__ address port handler
       = Raise (AssertionError attribute))
    /\ (forall self,
           TCPServer.__init__ address port handler = Ok self ->
           TCPServer.port_get self = port
           /\ (port = VNone \/ exists z, port = VInt z))
    /\ (forall z a c,
           address = VStr a -> port = VInt z -> handler = VClass c ->
           c <> object_ ->
           exists self,
             TCPServer.__init__ address port handler = Ok self
             /\ TCPServer.port_get self = VInt z).
Proof.
  intros address port handler. split; [|split].
  - intros Hnone Hint. unfold TCPServer.__init__. cbv zeta.
    destruct (TCPServer.address_set _ address) as [s1|e] eqn:Ea; simpl.
    + destruct port; simpl; eauto; [contradiction | now elim (Hint z)].
    + unfold TCPServer.address_set in Ea.
      destruct address; simpl in Ea; try discriminate;
        injection Ea as <-; eauto.
  - intros self H. apply init_ok in H as [-> [_ Hp]]. auto.
  - intros z a c -> -> -> Hc.
    destruct c; try contradiction; eexists; split; reflexivity.
Qed.

Lemma init_checks_port_type_witness :
  (exists attribute,
      TCPServer.__init__ (VStr "127.0.0.1") (VStr "12288")
        (VClass EchoRequestsHandler_) = Raise (AssertionError attribute))
  /\ (exists self,
         TCPServer.__init__ (VStr "127.0.0.1") (VInt 70000)
           (VClass EchoRequestsHandler_) = Ok self
         /\ TCPServer.port_get self = VInt 70000).
Proof.
  split.
  - apply (proj1 (init_checks_port_type (VStr "127.0.0.1") (VStr "12288")
                    (VClass EchoRequestsHandler_))); discriminate.
  - apply (proj2 (proj2 (init_checks_port_type (VStr "127.0.0.1") (VInt 70000)
                           (VClass EchoRequestsHandler_)))
             70000 "127.0.0.1" EchoRequestsHandler_);
      try reflexivity; discriminate.
Defined.

(** C2 as stated fails: the port 70000 is accepted. *)
Lemma init_accepts_port_out_of_range :
  ~ (forall address port handler self,
        TCPServer.__init__ address (VInt port) handler = Ok self ->
        0 <= port <= 65535).
Proof.
  intros H.
  specialize (H (VStr "127.0.0.1") 70000 (VClass EchoRequestsHandler_)
                _ eq_refl).
  lia.
Qed.




Section ServerMethods.
Import TCPServer.
Variable repr : string.

Lemma start_online env self cs :
  __online self = true ->
  start repr env (self, cs)
  = (Raise (ServerOperationError
              ("TCPServer | '" ++ repr ++ "' server is already online!")),
     (self, cs)).
Proof.
  intros H. unfold start, bind, get_self. simpl. rewrite H. reflexivity.
Qed.

Lemma stop_offline self cs :
  __online self = false ->
  stop repr (self, cs)
  = (Raise (ServerOperationError
              ("TCPServer | '" ++ repr ++ "' server is not online!")),
     (self, cs)).
Proof.
  intros H. unfold stop, bind, get_self. simpl. rewrite H. reflexivity.
Qed.

(** An offline server whose socket gets bound: the instance is online
    from then on, also when the message of success cannot be built. *)
Lemma start_bound self cs :
  __online self = false ->
  exists r cs',
    start repr Bound (self, cs)
    = (r, (mk (__address self) (__port self) (__handler self)
             (Some (mkSocketServer (__address self, __port self)
                      (__handler self)))
             (Some (daemon_thread
                      (mkSocketServer (__address self, __port self)
                         (__handler self))))
             true, cs'))
    /\ (forall msg, r <> Raise (ServerOperationError msg)).
Proof.
  intros H. unfold start, bind, get_self, try_except. simpl. rewrite H.
  unfold modify_self, with_server, with_worker, with_online. simpl.
  destruct (__handler self) as [| | | | | |c]; simpl;
    try (do 2 eexists; split; [reflexivity | discriminate]).
Qed.

(** An offline server whose socket cannot be bound: the instance is left
    as it was, and what is raised is not a [ServerOperationError]. *)
Lemma start_not_bound env self cs :
  __online self = false ->
  env <> Bound ->
  exists e,
    start repr env (self, cs) = (Raise e, (self, cs))
    /\ (forall msg, e <> ServerOperationError msg).
Proof.
  intros H Henv. unfold start, bind, get_self, try_except. simpl. rewrite H.
  destruct env as [|args|e]; [contradiction| |].
  - simpl. unfold lift, unpack2.
    destruct args as [|a [|b [|c args]]]; simpl;
      try (eexists; split; [reflexivity | discriminate]).
    destruct (eq_int a 10048); simpl;
      eexists; (split; [reflexivity | discriminate]).
  - destruct e; simpl; eexists; (split; [reflexivity | discriminate]).
Qed.

Lemma stop_online self cs :
  __online self = true ->
  exists r st,
    stop repr (self, cs) = (r, st)
    /\ (forall msg, r <> Raise (ServerOperationError msg))
    /\ (forall v, r = Ok v -> __online (fst st) = false).
Proof.
  intros H. unfold stop, bind, get_self. simpl. rewrite H. simpl.
  destruct (__server self); simpl.
  - do 2 eexists. split; [reflexivity|]. split; [discriminate|].
    intros _ _. reflexivity.
  - do 2 eexists. split; [reflexivity|]. split; discriminate.
Qed.
End ServerMethods.

(** C3. [start] raises a [ServerOperationError] exactly when the server is
    online, and then leaves the instance and the host untouched; [stop]
    raises a [ServerOperationError] exactly when the server is offline;
    when [start] returns the server is online, and when [stop] returns it
    is offline. *)
Theorem start_stop_online :
  forall repr env self cs,
    ((exists msg,
         fst (TCPServer.start repr env (self, cs))
         = Raise (ServerOperationError msg))
     <-> TCPServer.__online self = true)
    /\ (TCPServer.__online self = true ->
        snd (TCPServer.start repr env (self, cs)) = (self, cs))
    /\ ((exists msg,
            fst (TCPServer.stop repr (self, cs))
            = Raise (ServerOperationError msg))
        <-> TCPServer.__online self = false)
    /\ (forall v st,
           TCPServer.start repr env (self, cs) = (Ok v, st) ->
           TCPServer.online_get (fst st) = true)
    /\ (forall v st,
           TCPServer.stop repr (self, cs) = (Ok v, st) ->
           TCPServer.online_get (fst st) = false).
Proof.
  intros repr env self cs.
  destruct (TCPServer.__online self) eqn:Hon.
  - pose proof (start_online repr env self cs Hon) as Hs.
    destruct (stop_online repr self cs Hon) as (r & st & Hp & Hne & Hok).
    rewrite Hs, Hp. simpl.
    split; [split; eauto|]. split; [reflexivity|].
    split; [split; [intros [msg H]; now elim (Hne msg) | discriminate]|].
    split; [discriminate|].
    intros v st' H. injection H as Hr Hst. subst st'. now apply (Hok v).
  - pose proof (stop_offline repr self cs Hon) as Hp. rewrite Hp. simpl.
    split; [|split; [discriminate|split; [split; eauto|split; [|discriminate]]]].
    + split; [|discriminate]. intros [msg H].
      destruct env as [|args|e].
      * destruct (start_bound repr self cs Hon) as (r & cs' & Hs & Hne).
        rewrite Hs in H. now elim (Hne msg).
      * destruct (start_not_bound repr (TCPServer.SocketError args) self cs Hon)
          as (e' & Hs & Hne); [discriminate|].
        rewrite Hs in H. injection H as H. now elim (Hne msg).
      * destruct (start_not_bound repr (TCPServer.LibraryError e) self cs Hon)
          as (e' & Hs & Hne); [discriminate|].
        rewrite Hs in H. injection H as H. now elim (Hne msg).
    + intros v st H. destruct env as [|args|e].
      * destruct (start_bound repr self cs Hon) as (r & cs' & Hs & _).
        rewrite Hs in H. injection H as _ <-. reflexivity.
      * destruct (start_not_bound repr (TCPServer.SocketError args) self cs Hon)
          as (e' & Hs & _); [discriminate|]. rewrite Hs in H. discriminate.
      * destruct (start_not_bound repr (TCPServer.LibraryError e) self cs Hon)
          as (e' & Hs & _); [discriminate|]. rewrite Hs in H. discriminate.
Qed.

(** A server is started, started again, stopped, and stopped again. *)
Lemma start_stop_online_witness :
  let offline := TCPServer.mk (VStr "127.0.0.1") (VInt 12288)
                   (VClass EchoRequestsHandler_) None None false in
  let online := fst (snd (TCPServer.start "<TCPServer>" TCPServer.Bound
                            (offline, []))) in
  TCPServer.online_get online = true
  /\ snd (TCPServer.start "<TCPServer>" TCPServer.Bound (online, []))
     = (online, [])
  /\ TCPServer.online_get
       (fst (snd (TCPServer.stop "<TCPServer>" (online, [])))) = false
  /\ exists msg,
      fst (TCPServer.stop "<TCPServer>" (offline, []))
      = Raise (ServerOperationError msg).
Proof.
  intros offline online.
  pose proof (start_stop_online "<TCPServer>" TCPServer.Bound offline [])
    as (_ & _ & Hstop & Hstart & _).
  pose proof (start_stop_online "<TCPServer>" TCPServer.Bound online [])
    as (_ & Hagain & _ & _ & Hstopped).
  split; [exact (Hstart _ _ eq_refl)|].
  split; [exact (Hagain eq_refl)|].
  split; [exact (Hstopped _ _ eq_refl)|].
  exact (proj2 Hstop eq_refl).
Defined.

(** C4. On an offline server whose bind fails with the error number 10048
    (the port is in use), [start] builds the warning from a format with two
    places and three arguments: a [TypeError] is raised to the caller and
    [LogMessage] is not called.  The server stays offline. *)
Theorem start_port_in_use_raises :
  forall repr self cs error_message,
    TCPServer.__online self = false ->
    TCPServer.start repr
      (TCPServer.SocketError [VInt 10048; error_message]) (self, cs)
    = (Raise TypeError, (self, cs)).
Proof.
  intros repr self cs error_message H.
  unfold TCPServer.start, bind, TCPServer.get_self, try_except.
  simpl. rewrite H. reflexivity.
Qed.

Lemma start_port_in_use_raises_witness :
  TCPServer.start "<TCPServer>"
    (TCPServer.SocketError
       [VInt 10048;
        VStr "Only one usage of each socket address is normally permitted"])
    (TCPServer.mk (VStr "127.0.0.1") (VInt 12288)
       (VClass EchoRequestsHandler_) None None false, [])
  = (Raise TypeError,
     (TCPServer.mk (VStr "127.0.0.1") (VInt 12288)
        (VClass EchoRequestsHandler_) None None false, [])).
Proof.
  apply start_port_in_use_raises. reflexivity.
Defined.

(** ** The handlers that do not aggregate *)

Lemma echo_handle_loop conn : forall sent,
  EchoRequestsHandler.handle_loop conn sent
  = (sent ++ received_before_close conn)%list.
Proof.
  induction conn as [|data conn IH]; intros sent; simpl.
  - now rewrite app_nil_r.
  - destruct (Py.truthy data); simpl.
    + rewrite IH, <- app_assoc. reflexivity.
    + now rewrite app_nil_r.
Qed.

Lemma push_chunks_spec conn : forall w,
  push_chunks conn w
  = mkWorld (requestsStack w ++ received_before_close conn)%list (calls w).
Proof.
  induction conn as [|data conn IH]; intros [stack cs]; simpl.
  - now rewrite app_nil_r.
  - destruct (Py.truthy data); simpl.
    + rewrite IH. unfold push_request, Py.append. simpl.
      now rewrite <- app_assoc.
    + now rewrite app_nil_r.
Qed.

(** X1. The echo handler sends back each chunk it receives, in order and
    unchanged, up to the first empty read; it returns [True] and leaves the
    requests stack and the host alone, whatever is read after the close. *)
Theorem echo_handle_sends_back :
  forall conn w,
    EchoRequestsHandler.handle conn w
    = (Ok (VBool true), w, received_before_close conn)
    /\ forall late,
        EchoRequestsHandler.handle (conn ++ "" :: late) w
        = EchoRequestsHandler.handle conn w.
Proof.
  assert (Hclose : forall conn late,
             received_before_close (conn ++ "" :: late)
             = received_before_close conn).
  { induction conn as [|data conn IH]; intros late; simpl; [reflexivity|].
    destruct (Py.truthy data); [now rewrite IH | reflexivity]. }
  intros conn w. unfold EchoRequestsHandler.handle.
  split; [|intros late]; rewrite !echo_handle_loop; simpl;
    [reflexivity | now rewrite Hclose].
Qed.

(** X2. The logging and the default handler push every chunk received
    before the close on the requests stack as a blob of its own, behind the
    blobs already there and in the order of arrival; they make no host
    call. *)
Theorem stack_handle_pushes_chunks :
  forall conn w,
    LoggingStackDataRequestsHandler.handle conn w
    = (Ok (VBool true),
       mkWorld (requestsStack w ++ received_before_close conn)%list (calls w))
    /\ DefaultStackDataRequestsHandler.handle conn w
       = LoggingStackDataRequestsHandler.handle conn w.
Proof.
  intros conn w. unfold LoggingStackDataRequestsHandler.handle,
    DefaultStackDataRequestsHandler.handle.
  now rewrite push_chunks_spec.
Qed.

Lemma logging_drain stack : forall cs,
  drain LoggingStackDataRequestsHandler.body stack cs
  = (Ok (VBool true),
     mkWorld [] (cs ++ map (fun blob => LogMessage blob None) stack)%list).
Proof.
  induction stack as [|blob stack IH]; intros cs; simpl.
  - now rewrite app_nil_r.
  - rewrite IH, <- app_assoc. reflexivity.
Qed.

(** X3. [processData] of the logging handler logs every queued blob as it
    is, oldest first, with one [LogMessage] call each, and leaves the stack
    empty; so what a client sent before closing is logged chunk by chunk. *)
Theorem logging_processData_logs_all :
  forall w conn,
    LoggingStackDataRequestsHandler.processData w
    = (Ok (VBool true),
       mkWorld []
         (calls w ++ map (fun blob => LogMessage blob None) (requestsStack w))%list)
    /\ LoggingStackDataRequestsHandler.processData
         (snd (LoggingStackDataRequestsHandler.handle conn w))
       = (Ok (VBool true),
          mkWorld []
            (calls w
             ++ map (fun blob => LogMessage blob None)
                  (requestsStack w ++ received_before_close conn))%list).
Proof.
  intros w conn. unfold LoggingStackDataRequestsHandler.processData.
  rewrite logging_drain. split; [reflexivity|].
  unfold LoggingStackDataRequestsHandler.handle. simpl.
  rewrite push_chunks_spec. simpl. now rewrite logging_drain.
Qed.

(** ** One read of the Python handler *)

Section FindSlice.

Lemma prefix_split p : forall s,
  prefix p s = true -> exists rest, s = p ++ rest.
Proof.
  induction p as [|c p IH]; intros s H.
  - exists s. reflexivity.
  - destruct s as [|d s]; simpl in H; [discriminate|].
    destruct (ascii_dec c d) as [<-|]; [|discriminate].
    destruct (IH _ H) as [rest ->]. exists rest. reflexivity.
Qed.

Lemma prefix_extend p : forall s t,
  prefix p s = true -> prefix p (s ++ t) = true.
Proof.
  induction p as [|c p IH]; intros s t H; [now destruct (s ++ t)|].
  destruct s as [|d s]; simpl in H; [discriminate|]. simpl.
  destruct (ascii_dec c d); [now apply IH | discriminate].
Qed.

Lemma substring_app pre : forall s,
  substring 0 (String.length pre) (pre ++ s) = pre.
Proof.
  induction pre as [|c pre IH]; intros s; simpl.
  - now destruct s.
  - now rewrite IH.
Qed.

Lemma len_app pre s : Py.len (pre ++ s) = Py.len pre + Py.len s.
Proof.
  unfold Py.len. induction pre as [|c pre IH]; simpl String.length.
  - simpl. lia.
  - simpl append. simpl String.length. lia.
Qed.

Lemma slice_to_app pre s : Py.slice_to (pre ++ s) (Py.len pre) = pre.
Proof.
  unfold Py.slice_to. rewrite len_app.
  assert (0 <= Py.len pre) by (unfold Py.len; lia).
  assert (0 <= Py.len s) by (unfold Py.len; lia).
  destruct (Py.len pre <? 0) eqn:E; [apply Z.ltb_lt in E; lia|].
  rewrite Z.min_l by lia. unfold Py.len. rewrite Nat2Z.id.
  apply substring_app.
Qed.

(** [find] gives the first place where [sub] occurs: the text in front of
    it does not hold [sub]. *)
Lemma find_from_first sub : forall s i,
  sub <> "" ->
  Py.contains sub s = true ->
  exists pre rest,
    s = pre ++ sub ++ rest
    /\ Py.find_from i sub s = i + Py.len pre
    /\ Py.contains sub pre = false.
Proof.
  intros s. induction s as [|c s IH]; intros i Hsub H.
  - simpl in H. rewrite orb_false_r in H.
    destruct sub; [now elim Hsub | discriminate].
  - cbn [Py.contains] in H. cbn [Py.find_from].
    destruct (prefix sub (String c s)) eqn:Hp.
    + destruct (prefix_split _ _ Hp) as [rest Hrest].
      exists "", rest. repeat split; [exact Hrest | unfold Py.len; simpl; lia|].
      simpl. rewrite orb_false_r. destruct sub; [now elim Hsub | reflexivity].
    + simpl in H. destruct (IH (i + 1) Hsub H) as (pre & rest & -> & Hf & Hc).
      exists (String c pre), rest. repeat split.
      * rewrite Hf. unfold Py.len. simpl String.length. lia.
      * cbn [Py.contains]. rewrite Hc, orb_false_r.
        destruct (prefix sub (String c pre)) eqn:Hp'; [|reflexivity].
        apply (prefix_extend _ _ (sub ++ rest)) in Hp'.
        simpl in Hp'. simpl in Hp. congruence.
Qed.
End FindSlice.

(** X4. [handle] of the Python handler is decided by its first read alone:
    an empty read pushes the empty blob, a chunk that holds the terminator
    pushes the text in front of it, and any other chunk ends the call with
    an [IndexError]; in no case is a second chunk looked at. *)
Theorem python_handle_first_read :
  forall data conn w,
    PythonStackDataRequestsHandler.handle (data :: conn) w
    = (if negb (Py.truthy data) then
         (Ok (VBool true), push_request "" w)
       else if Py.contains PythonStackDataRequestsHandler.requestEnd data then
         (Ok (VBool true),
          push_request
            (Py.slice_to data
               (Py.find data PythonStackDataRequestsHandler.requestEnd)) w)
       else (Raise IndexError, w))
    /\ PythonStackDataRequestsHandler.handle (data :: conn) w
       = PythonStackDataRequestsHandler.handle [data] w.
Proof.
  intros data conn w.
  unfold PythonStackDataRequestsHandler.handle. simpl.
  unfold PythonStackDataRequestsHandler.loop_body.
  destruct (Py.truthy data); simpl; [|split; reflexivity].
  destruct (Py.contains _ data); simpl; [|split; reflexivity].
  split; reflexivity.
Qed.

(** X5. A request whose first chunk holds the terminator: the blob pushed is
    the text in front of the first terminator of the chunk; it holds no
    terminator itself, and what follows the terminator in the chunk, and
    every later chunk, is discarded. *)
Theorem python_handle_single_chunk :
  forall data conn w,
    Py.contains PythonStackDataRequestsHandler.requestEnd data = true ->
    exists blob rest,
      data = blob ++ PythonStackDataRequestsHandler.requestEnd ++ rest
      /\ Py.contains PythonStackDataRequestsHandler.requestEnd blob = false
      /\ PythonStackDataRequestsHandler.handle (data :: conn) w
         = (Ok (VBool true), push_request blob w).
Proof.
  intros data conn w H.
  destruct (find_from_first PythonStackDataRequestsHandler.requestEnd data 0)
    as (blob & rest & Hd & Hf & Hc); [discriminate | exact H |].
  exists blob, rest. repeat split; [exact Hd | exact Hc |].
  assert (Ht : Py.truthy data = true).
  { rewrite Hd. destruct blob; reflexivity. }
  unfold PythonStackDataRequestsHandler.handle. simpl.
  unfold PythonStackDataRequestsHandler.loop_body. rewrite Ht, H. simpl.
  unfold Py.find. rewrite Hf. simpl (0 + _). rewrite Hd at 1.
  rewrite slice_to_app. reflexivity.
Qed.

Lemma python_handle_single_chunk_witness :
  exists blob rest,
    python_payload ++ "<!RE>trailing<!RE>"
    = blob ++ PythonStackDataRequestsHandler.requestEnd ++ rest
    /\ Py.contains PythonStackDataRequestsHandler.requestEnd blob = false
    /\ PythonStackDataRequestsHandler.handle
         [python_payload ++ "<!RE>trailing<!RE>"; "more"] (mkWorld [] [])
       = (Ok (VBool true), push_request blob (mkWorld [] [])).
Proof.
  exact (python_handle_single_chunk
           (python_payload ++ "<!RE>trailing<!RE>") ["more"]
           (mkWorld [] []) eq_refl).
Defined.

(** ** Draining the requests stack *)



(** Draining a stack is draining its front and then what is behind it; an
    exception in the front leaves what is behind on the stack. *)
Lemma drain_app body front : forall back cs,
  drain body (front ++ back) cs
  = match drain body front cs with
    | (Ok _, w) => drain body back (calls w)
    | (Raise e, w) => (Raise e, mkWorld (requestsStack w ++ back) (calls w))
    end.
Proof.
  induction front as [|blob front IH]; intros back cs; simpl.
  - reflexivity.
  - destruct (body blob cs) as [[u|e] cs']; [apply IH | reflexivity].
Qed.

(** X6. For each of the three draining handlers, [processData] on the blobs
    [front ++ back] is [processData] on [front] followed by [processData]
    on [back]; when a host call raises while [front] is drained, the call
    ends there and the blobs of [back] stay queued, in order, behind those
    of [front] not yet popped. *)
Theorem processData_app :
  forall h variant front back cs,
    variant <> Echo ->
    processData h variant (mkWorld (front ++ back) cs)
    = match processData h variant (mkWorld front cs) with
      | (Ok _, w) => processData h variant (mkWorld back (calls w))
      | (Raise e, w) =>
          (Raise e, mkWorld (requestsStack w ++ back) (calls w))
      end.
Proof.
  intros h variant front back cs Hv.
  destruct variant; [now elim Hv | | |]; apply drain_app.
Qed.

Lemma processData_app_witness :
  processData plain_host PythonStack (mkWorld (["1"] ++ ["2"]) [])
  = processData plain_host PythonStack
      (mkWorld ["2"]
         [ExecuteScriptCode "1" "Python";
          LogMessage "TCPServer | Request return value: 'None'."
            (Some siVerbose)]).
Proof.
  rewrite (processData_app plain_host PythonStack ["1"] ["2"] [])
    by discriminate.
  reflexivity.
Defined.




(** ** Requests the default handler does not run *)

Section Bar.

Lemma has_bar_cons c s :
  Py.contains "|" s = true -> Py.contains "|" (String c s) = true.
Proof. intros H. cbn [Py.contains]. rewrite H. apply orb_true_r. Qed.

Lemma has_bar_drop n : forall s,
  Py.contains "|" (Text.drop n s) = true -> Py.contains "|" s = true.
Proof.
  induction n as [|n IH]; intros s H; [exact H|].
  destruct s as [|c s]; [exact H|]. simpl in H. apply has_bar_cons. auto.
Qed.

Lemma has_bar_head c s t :
  prefix "|" (String c s) = true -> Py.contains "|" (String c t) = true.
Proof.
  intros H. cbn [Py.contains prefix] in *.
  destruct (ascii_dec "|"%char c); [|discriminate]. now destruct t.
Qed.

Lemma has_bar_lstrip s :
  Py.contains "|" (Text.lstrip s) = true -> Py.contains "|" s = true.
Proof.
  induction s as [|c s IH]; simpl; [auto|].
  destruct (Text.isspace c); [|auto]. intros H. apply has_bar_cons. auto.
Qed.

Lemma has_bar_rstrip s :
  Py.contains "|" (Text.rstrip s) = true -> Py.contains "|" s = true.
Proof.
  induction s as [|c s IH]; [auto|]. cbn [Text.rstrip].
  destruct (Text.rstrip s) as [|d r] eqn:E.
  - destruct (Text.isspace c); [discriminate|].
    cbn [Py.contains]. rewrite orb_false_r.
    destruct (prefix "|" (String c "")) eqn:Hp; [|discriminate].
    intros _. now apply (has_bar_head c "" s).
  - cbn [Py.contains].
    destruct (prefix "|" (String c (String d r))) eqn:Hp.
    + intros _. now apply (has_bar_head c (String d r) s).
    + simpl orb. intros H. apply has_bar_cons. auto.
Qed.

(** A text that matches the pattern of a language holds a bar. *)
Lemma match_has_bar lang data m :
  Re.match_ lang data = Some m -> Py.contains "|" data = true.
Proof.
  unfold Re.match_.
  set (k := fun rest => Some (Re.mkGroups lang (Re.dot_star rest))).
  assert (Hbar : forall s m, Re.literal "|" k s = Some m ->
                             Py.contains "|" s = true).
  { intros s m0. unfold Re.literal.
    destruct (prefix "|" s) eqn:Hp; [|discriminate]. intros _.
    destruct s as [|c s]; [discriminate|]. now apply (has_bar_head c s s). }
  assert (Hsp : forall (k' : string -> option Re.groups),
             (forall s m, k' s = Some m -> Py.contains "|" s = true) ->
             forall s m, Re.spaces k' s = Some m -> Py.contains "|" s = true).
  { intros k' Hk' s. induction s as [|c s IH]; intros m0; simpl.
    - apply Hk'.
    - destruct (Text.isspace c); [|apply Hk'].
      destruct (Re.spaces k' s) eqn:E.
      + intros _. apply has_bar_cons. eapply IH. reflexivity.
      + apply Hk'. }
  assert (Hlit : forall (k' : string -> option Re.groups),
             (forall s m, k' s = Some m -> Py.contains "|" s = true) ->
             forall s m, Re.literal lang k' s = Some m ->
                         Py.contains "|" s = true).
  { intros k' Hk' s m0. unfold Re.literal.
    destruct (prefix lang s); [|discriminate].
    intros H. eapply has_bar_drop, Hk', H. }
  apply Hsp, Hlit, Hsp, Hbar.
Qed.

Lemma for_language_no_match h data cs : forall languages,
  (forall l, In l languages -> Re.match_ l data = None) ->
  DefaultStackDataRequestsHandler.for_language h languages data cs
  = (Ok tt, cs).
Proof.
  induction languages as [|l languages IH]; intros H; simpl; [reflexivity|].
  rewrite (H l) by (left; reflexivity). apply IH. intros l' Hl'.
  apply H. now right.
Qed.
End Bar.

(** X8. A blob without a vertical bar that is not the path of an existing
    file is dropped by [processData] of the default handler, whatever else
    it holds: no host call is made for it and nothing is raised. *)
Theorem default_without_bar_dropped :
  forall h blob stack cs,
    Py.contains "|" blob = false ->
    exists_ h cs (Text.strip blob) = false ->
    DefaultStackDataRequestsHandler.processData h (mkWorld (blob :: stack) cs)
    = DefaultStackDataRequestsHandler.processData h (mkWorld stack cs).
Proof.
  intros h blob stack cs Hbar Hex.
  unfold DefaultStackDataRequestsHandler.processData. simpl.
  unfold DefaultStackDataRequestsHandler.body at 1, bind, call_exists.
  rewrite Hex, for_language_no_match; [reflexivity|].
  intros l _. destruct (Re.match_ l (Text.strip blob)) eqn:E; [|reflexivity].
  apply match_has_bar, has_bar_lstrip, has_bar_rstrip in E. congruence.
Qed.

Lemma default_without_bar_dropped_witness :
  DefaultStackDataRequestsHandler.processData plain_host
    (mkWorld ["Python print 1"; "Python | print 2"] [])
  = DefaultStackDataRequestsHandler.processData plain_host
      (mkWorld ["Python | print 2"] []).
Proof.
  apply default_without_bar_dropped; reflexivity.
Defined.



(** ** Construction and life of a server *)

(** X10. What the constructor checks, in its order: the address is [None],
    a [str] or a [unicode], else [AssertionError]; then the port is [None]
    or an [int], else [AssertionError]; then the handler is [None] or a
    subclass of [BaseRequestHandler], else [TypeError] when it is not a
    class and [AssertionError] when it is another class.  When all three
    pass, the instance holds the three values and is offline. *)
Theorem init_validation :
  forall address port handler,
    TCPServer.__init__ address port handler
    = if negb (address_like address) then Raise (AssertionError "address")
      else if negb (port_like port) then Raise (AssertionError "port")
      else if handler_like handler then
        Ok (TCPServer.mk address port handler None None false)
      else match handler with
           | VClass _ => Raise (AssertionError "handler")
           | _ => Raise TypeError
           end.
Proof.
  intros address port handler. unfold TCPServer.__init__. cbv zeta.
  destruct address; simpl; try reflexivity;
    destruct port; simpl; try reflexivity;
    destruct handler as [| | | | | |c]; simpl; try reflexivity;
    destruct c; reflexivity.
Qed.

Section Consistency.
Import TCPServer.

Lemma start_offline_bound repr self cs :
  __online self = false ->
  start repr Bound (self, cs)
  = let server := mkSocketServer (__address self, __port self)
                    (__handler self) in
    let online := mk (__address self) (__port self) (__handler self)
                    (Some server) (Some (daemon_thread server)) true in
    match __handler self with
    | VClass c =>
        (Ok (VBool true),
         (online,
          (cs ++ [LogMessage
                    ("TCPServer | Server successfully started on '"
                     ++ str (__address self) ++ "' address and '"
                     ++ str (__port self) ++ "' port using '"
                     ++ class_name c ++ "' requests handler!")
                    (Some siInfo)])%list))
    | _ => (Raise AttributeError, (online, cs))
    end.
Proof.
  intros H. unfold start, bind, get_self, try_except. simpl. rewrite H.
  unfold modify_self, with_server, with_worker, with_online. simpl.
  destruct (__handler self); reflexivity.
Qed.

Lemma start_offline_failed repr env self cs :
  __online self = false ->
  env <> Bound ->
  start repr env (self, cs)
  = (Raise match env with
           | SocketError [error_number; _] =>
               if eq_int error_number 10048 then TypeError
               else socket_error []
           | SocketError _ => ValueError
           | LibraryError e => exn_of_library_error e
           | Bound => AttributeError
           end,
     (self, cs)).
Proof.
  intros H Henv. unfold start, bind, get_self, try_except. simpl. rewrite H.
  destruct env as [|args|e]; [contradiction| |].
  - simpl. unfold lift, unpack2.
    destruct args as [|a [|b [|c args]]]; simpl; try reflexivity.
    destruct (eq_int a 10048); reflexivity.
  - destruct e; reflexivity.
Qed.

Lemma stop_consistent_online repr self cs :
  consistent self ->
  __online self = true ->
  stop repr (self, cs)
  = (Ok (VBool true),
     (mk (__address self) (__port self) (__handler self) None None false,
      (cs ++ [LogMessage "TCPServer | Server successfully stopped!"
                (Some siInfo)])%list)).
Proof.
  intros Hc H. unfold stop, bind, get_self. simpl. rewrite H. simpl.
  unfold consistent in Hc. rewrite H in Hc.
  destruct (__server self); [reflexivity|].
  destruct (__worker self); contradiction.
Qed.
End Consistency.

(** X11. The listening socket, the serving thread and the online flag of an
    instance agree after every operation of the class: the constructor
    leaves an instance with neither socket nor thread and offline; [start]
    (for every outcome of the bind) and [stop], returning or raising, and
    the setters of the address, the port and the handler take an instance
    where the three agree to one where they agree.  The setters leave the
    socket of an online server as it is: it stays bound to the address and
    the port of the [start]. *)
Theorem server_stays_attached :
  forall repr env self cs v,
    (forall address port handler,
        TCPServer.__init__ address port handler = Ok self -> attached self)
    /\ (attached self ->
        attached (fst (snd (TCPServer.start repr env (self, cs))))
        /\ attached (fst (snd (TCPServer.stop repr (self, cs))))
        /\ (forall self',
               TCPServer.address_set self v = Ok self'
               \/ TCPServer.port_set self v = Ok self'
               \/ TCPServer.handler_set self v = Ok self' ->
               attached self'
               /\ TCPServer.__server self' = TCPServer.__server self
               /\ TCPServer.online_get self' = TCPServer.online_get self)).
Proof.
  intros repr env self cs v. split.
  - intros address port handler H. apply init_ok in H as [-> _]. exact I.
  - intros Ha. split; [|split].
    + destruct (TCPServer.__online self) eqn:Hon.
      * now rewrite start_online.
      * destruct env as [|args|e].
        -- rewrite start_offline_bound by assumption. cbv zeta.
           destruct (TCPServer.__handler self); reflexivity.
        -- now rewrite start_offline_failed by (assumption || discriminate).
        -- now rewrite start_offline_failed by (assumption || discriminate).
    + destruct (TCPServer.__online self) eqn:Hon.
      * unfold TCPServer.stop, bind, TCPServer.get_self. simpl.
        rewrite Hon. simpl. unfold attached in Ha. rewrite Hon in Ha.
        destruct (TCPServer.__server self); [exact I|].
        destruct (TCPServer.__worker self); contradiction.
      * now rewrite stop_offline.
    + intros self' [H|[H|H]].
      * apply address_set_ok in H as [_ ->]. auto.
      * apply port_set_ok in H as [_ ->]. auto.
      * apply handler_set_ok in H as ->. auto.
Qed.

Lemma server_stays_attached_witness :
  attached
    (fst (snd (TCPServer.start "<TCPServer>" TCPServer.Bound
                 (TCPServer.mk (VStr "127.0.0.1") (VInt 12288) VNone
                    None None false, []))))
  /\ attached
       (TCPServer.with_port (VInt 80)
          (TCPServer.mk (VStr "127.0.0.1") (VInt 12288) VNone
             None None false)).
Proof.
  destruct (proj2 (server_stays_attached "<TCPServer>" TCPServer.Bound
                     (TCPServer.mk (VStr "127.0.0.1") (VInt 12288) VNone
                        None None false) [] (VInt 80)) I)
    as (Hstart & _ & Hset).
  split; [exact Hstart|].
  exact (proj1 (Hset _ (or_intror (or_introl eq_refl)))).
Defined.

(** X12. [start] on an offline server whose socket gets bound: with a
    handler class it returns [True], the server is online and one message
    of level info names the address, the port and the handler; with a
    handler that is no class ([None], which the constructor accepts) the
    server is put online all the same, but an [AttributeError] escapes and
    nothing is logged. *)
Theorem start_when_bound :
  forall repr self cs,
    TCPServer.__online self = false ->
    let online :=
      TCPServer.mk (TCPServer.__address self) (TCPServer.__port self)
        (TCPServer.__handler self)
        (Some (TCPServer.mkSocketServer
                 (TCPServer.__address self, TCPServer.__port self)
                 (TCPServer.__handler self)))
        (Some (TCPServer.daemon_thread
                 (TCPServer.mkSocketServer
                    (TCPServer.__address self, TCPServer.__port self)
                    (TCPServer.__handler self))))
        true in
    TCPServer.start repr TCPServer.Bound (self, cs)
    = match TCPServer.__handler self with
      | VClass c =>
          (Ok (VBool true),
           (online,
            (cs ++ [LogMessage
                      ("TCPServer | Server successfully started on '"
                       ++ TCPServer.str (TCPServer.__address self)
                       ++ "' address and '"
                       ++ TCPServer.str (TCPServer.__port self)
                       ++ "' port using '" ++ TCPServer.class_name c
                       ++ "' requests handler!")
                      (Some siInfo)])%list))
      | _ => (Raise AttributeError, (online, cs))
      end.
Proof.
  intros repr self cs H. now rewrite start_offline_bound.
Qed.

Lemma start_when_bound_witness :
  TCPServer.start "<TCPServer>" TCPServer.Bound
    (TCPServer.mk (VStr "127.0.0.1") (VInt 12288) VNone None None false, [])
  = (Raise AttributeError,
     (TCPServer.mk (VStr "127.0.0.1") (VInt 12288) VNone
        (Some (TCPServer.mkSocketServer (VStr "127.0.0.1", VInt 12288) VNone))
        (Some (TCPServer.daemon_thread
                 (TCPServer.mkSocketServer (VStr "127.0.0.1", VInt 12288)
                    VNone)))
        true, [])).
Proof.
  exact (start_when_bound "<TCPServer>"
           (TCPServer.mk (VStr "127.0.0.1") (VInt 12288) VNone None None false)
           [] eq_refl).
Defined.

(** X13. Starting a freshly constructed server with a handler class and
    stopping it again gives back the instance as it was constructed; both
    calls return [True] and each logs one message of level info. *)
Theorem start_then_stop_restores :
  forall repr address port c self cs,
    TCPServer.__init__ address port (VClass c) = Ok self ->
    exists started message,
      TCPServer.start repr TCPServer.Bound (self, cs)
      = (Ok (VBool true),
         (started, (cs ++ [LogMessage message (Some siInfo)])%list))
      /\ TCPServer.online_get started = true
      /\ TCPServer.stop repr
           (started, (cs ++ [LogMessage message (Some siInfo)])%list)
         = (Ok (VBool true),
            (self,
             (cs ++ [LogMessage message (Some siInfo);
                     LogMessage "TCPServer | Server successfully stopped!"
                       (Some siInfo)])%list)).
Proof.
  intros repr address port c self cs H.
  apply init_ok in H as [-> _].
  rewrite start_offline_bound by reflexivity. cbv zeta. simpl.
  do 2 eexists. split; [reflexivity|]. split; [reflexivity|].
  rewrite stop_consistent_online; [| unfold consistent; simpl; auto | reflexivity].
  simpl. rewrite <- app_assoc. reflexivity.
Qed.

Lemma start_then_stop_restores_witness :
  exists started message,
    TCPServer.start "<TCPServer>" TCPServer.Bound
      (TCPServer.mk (VStr "127.0.0.1") (VInt 12288)
         (VClass PythonStackDataRequestsHandler_) None None false, [])
    = (Ok (VBool true), (started, [LogMessage message (Some siInfo)]))
    /\ TCPServer.online_get started = true
    /\ TCPServer.stop "<TCPServer>"
         (started, [LogMessage message (Some siInfo)])
       = (Ok (VBool true),
          (TCPServer.mk (VStr "127.0.0.1") (VInt 12288)
             (VClass PythonStackDataRequestsHandler_) None None false,
           [LogMessage message (Some siInfo);
            LogMessage "TCPServer | Server successfully stopped!"
              (Some siInfo)])).
Proof.
  exact (start_then_stop_restores "<TCPServer>" (VStr "127.0.0.1")
           (VInt 12288) PythonStackDataRequestsHandler_ _ [] eq_refl).
Defined.

(** X14. [start] on an offline server whose socket cannot be bound leaves
    the instance as it was and logs nothing, and what it raises is: the
    library's own error when that is no [socket.error]; a [ValueError] when
    the [socket.error] does not carry exactly two arguments; a [TypeError]
    when its error number is 10048; and otherwise a new [socket.error]
    without the arguments of the one caught. *)
Theorem start_when_not_bound :
  forall repr env self cs,
    TCPServer.__online self = false ->
    env <> TCPServer.Bound ->
    TCPServer.start repr env (self, cs)
    = (Raise match env with
             | TCPServer.SocketError [error_number; _] =>
                 if TCPServer.eq_int error_number 10048 then TypeError
                 else socket_error []
             | TCPServer.SocketError _ => ValueError
             | TCPServer.LibraryError e => TCPServer.exn_of_library_error e
             | TCPServer.Bound => AttributeError
             end,
       (self, cs)).
Proof.
  intros repr env self cs H Henv. now apply start_offline_failed.
Qed.

Lemma start_when_not_bound_witness :
  TCPServer.start "<TCPServer>"
    (TCPServer.SocketError [VInt 98; VStr "Address already in use"])
    (TCPServer.mk (VStr "127.0.0.1") (VInt 12288)
       (VClass EchoRequestsHandler_) None None false, [])
  = (Raise (socket_error []),
     (TCPServer.mk (VStr "127.0.0.1") (VInt 12288)
        (VClass EchoRequestsHandler_) None None false, [])).
Proof.
  apply (start_when_not_bound "<TCPServer>"
           (TCPServer.SocketError [VInt 98; VStr "Address already in use"]));
    [reflexivity | discriminate].
Defined.

(** ** Starting, stopping and restarting from the module *)

Section PluginFunctions.
Import Plugin.
Variable repr : string.
Variable clock : nat -> Z.

Lemma status_written_on_start address port handler s :
  _setServerStatusFile clock
    [("active", VInt 1); ("address", address); ("port", port);
     ("handler", handler)] s
  = (Ok (VBool true),
     with_status_file
       (Some [("active", VInt 1); ("address", address); ("port", port);
              ("handler", handler); ("touched", VInt (clock (ticks s)))])
       (with_ticks (S (ticks s)) s)).
Proof. reflexivity. Qed.

Lemma status_written_on_stop s :
  _setServerStatusFile clock [("active", VInt 0)] s
  = (Ok (VBool true),
     with_status_file
       (Some [("active", VInt 0); ("touched", VInt (clock (ticks s)))])
       (with_ticks (S (ticks s)) s)).
Proof. reflexivity. Qed.

(** [_startServer] when no server is online. *)
Lemma startServer_offline env s :
  match Runtime_server s with
  | Some self => TCPServer.online_get self = false
  | None => True
  end ->
  _startServer repr clock env s
  = match TCPServer.__init__ (Runtime_address s) (Runtime_port s)
            (Runtime_requestsHandler s) with
    | Raise e => (Raise e, s)
    | Ok self =>
        match TCPServer.start repr env (self, app_calls s) with
        | (Raise e, st) =>
            (Raise e, with_calls (snd st) (with_server (Some (fst st)) s))
        | (Ok _, st) =>
            (Ok (VBool true),
             with_status_file
               (Some [("active", VInt 1); ("address", Runtime_address s);
                      ("port", Runtime_port s);
                      ("handler", Runtime_requestsHandler s);
                      ("touched", VInt (clock (ticks s)))])
               (with_ticks (S (ticks s))
                  (with_calls (snd st) (with_server (Some (fst st)) s))))
        end
    end.
Proof.
  intros Hoff. unfold _startServer, bind at 1, get.
  replace (match Runtime_server s with
           | Some self => TCPServer.online_get self
           | None => false
           end) with false
    by (destruct (Runtime_server s); [now rewrite Hoff | reflexivity]).
  unfold bind at 1, _getServer, lift.
  destruct (TCPServer.__init__ _ _ _) as [self|e]; [|reflexivity].
  unfold bind at 1, modify. unfold bind at 1, on_server.
  cbn [Runtime_server with_server app_calls].
  destruct (TCPServer.start repr env (self, app_calls s)) as [[v|e] st];
    [|reflexivity].
  unfold bind. rewrite status_written_on_start.
  destruct s; reflexivity.
Qed.

Lemma startServer_online s self :
  Runtime_server s = Some self ->
  TCPServer.online_get self = true ->
  _startServer repr clock TCPServer.Bound s
  = (Ok VNone,
     with_calls
       (app_calls s
        ++ [LogMessage "TCPServer | The server is already online!"
              (Some siWarning)])%list s)
  /\ forall env, _startServer repr clock env s
                 = _startServer repr clock TCPServer.Bound s.
Proof.
  intros Hs Hon. unfold _startServer, bind, get. cbv beta iota.
  rewrite Hs, Hon. split; reflexivity.
Qed.

Lemma stopServer_cases s :
  _stopServer repr clock s
  = match Runtime_server s with
    | None =>
        (Ok (VBool true),
         with_status_file
           (Some [("active", VInt 0); ("touched", VInt (clock (ticks s)))])
           (with_ticks (S (ticks s)) s))
    | Some self =>
        if TCPServer.online_get self then
          match TCPServer.stop repr (self, app_calls s) with
          | (Raise e, st) =>
              (Raise e, with_calls (snd st) (with_server (Some (fst st)) s))
          | (Ok _, st) =>
              (Ok (VBool true),
               with_status_file
                 (Some [("active", VInt 0);
                        ("touched", VInt (clock (ticks s)))])
                 (with_ticks (S (ticks s))
                    (with_calls (snd st) (with_server (Some (fst st)) s))))
          end
        else
          (Ok VNone,
           with_calls
             (app_calls s
              ++ [LogMessage "TCPServer | The server is not online!"
                    (Some siWarning)])%list s)
    end.
Proof.
  destruct s as [srv a p h cs f t].
  unfold _stopServer, bind, get, on_server, ret.
  cbv beta. cbn [Runtime_server app_calls].
  destruct srv as [self|].
  - destruct (TCPServer.online_get self) eqn:Hon; cbn [negb];
      cbn [Runtime_server app_calls]; [|reflexivity].
    destruct (TCPServer.stop repr (self, cs)) as [[v|e] st]; reflexivity.
  - reflexivity.
Qed.
End PluginFunctions.

Section PluginProperties.
Import Plugin.
Variable repr : string.
Variable clock : nat -> Z.

(** [_startServer] when no server is online and the socket cannot be
    bound: an exception escapes and no server is online afterwards. *)
Lemma startServer_not_bound env s :
  nothing_online s ->
  env <> TCPServer.Bound ->
  exists e s',
    _startServer repr clock env s = (Raise e, s') /\ nothing_online s'.
Proof.
  intros Hoff Henv. rewrite startServer_offline by exact Hoff.
  destruct (TCPServer.__init__ _ _ _) as [self|e] eqn:Hi.
  - apply init_ok in Hi as [-> _].
    rewrite start_offline_failed by (reflexivity || assumption).
    do 2 eexists. split; [reflexivity|].
    destruct s; reflexivity.
  - do 2 eexists. split; [reflexivity | exact Hoff].
Qed.
End PluginProperties.

(** X15. [_startServer] with a server online does nothing but log a
    warning and return [None], whatever the bind would give: the server is
    kept, nothing is bound and the status file is not written.  Whenever
    [_startServer] returns, [Runtime.server] is online; it returns [None]
    exactly when a server was online already, and [True] exactly when none
    was and the socket got bound: the server is then a new instance made
    from the settings of [Runtime], and the status file holds [active = 1],
    these settings and the time of the call. *)
Theorem startServer_returns_online :
  forall repr clock env s,
    (forall self,
        Plugin.Runtime_server s = Some self ->
        TCPServer.online_get self = true ->
        Plugin._startServer repr clock env s
        = (Ok VNone,
           Plugin.with_calls
             (Plugin.app_calls s
              ++ [LogMessage "TCPServer | The server is already online!"
                    (Some siWarning)])%list s))
    /\ (forall v s',
           Plugin._startServer repr clock env s = (Ok v, s') ->
           exists self',
             Plugin.Runtime_server s' = Some self'
             /\ TCPServer.online_get self' = true
             /\ (v = VNone \/ v = VBool true)
             /\ (v = VNone <->
                 exists self,
                   Plugin.Runtime_server s = Some self
                   /\ TCPServer.online_get self = true)
             /\ (v = VNone ->
                 Plugin.Runtime_server s = Some self'
                 /\ s' = Plugin.with_calls
                           (Plugin.app_calls s
                            ++ [LogMessage
                                  "TCPServer | The server is already online!"
                                  (Some siWarning)])%list s)
             /\ (v = VBool true ->
                 nothing_online s
                 /\ env = TCPServer.Bound
                 /\ TCPServer.address_get self' = Plugin.Runtime_address s
                 /\ TCPServer.port_get self' = Plugin.Runtime_port s
                 /\ TCPServer.handler_get self'
                    = Plugin.Runtime_requestsHandler s
                 /\ Plugin.status_file s'
                    = Some [("active", VInt 1);
                            ("address", Plugin.Runtime_address s);
                            ("port", Plugin.Runtime_port s);
                            ("handler", Plugin.Runtime_requestsHandler s);
                            ("touched", VInt (clock (Plugin.ticks s)))])).
Proof.
  intros repr clock env s.
  assert (Hon : forall self,
             Plugin.Runtime_server s = Some self ->
             TCPServer.online_get self = true ->
             Plugin._startServer repr clock env s
             = (Ok VNone,
                Plugin.with_calls
                  (Plugin.app_calls s
                   ++ [LogMessage "TCPServer | The server is already online!"
                         (Some siWarning)])%list s)).
  { intros self Hs Hself.
    destruct (startServer_online repr clock s self Hs Hself) as [Hb Hany].
    now rewrite Hany. }
  split; [exact Hon|].
  intros v s' H.
  assert (Hoff : nothing_online s ->
                 v = VBool true
                 /\ exists self',
                     Plugin.Runtime_server s' = Some self'
                     /\ TCPServer.online_get self' = true
                     /\ env = TCPServer.Bound
                     /\ TCPServer.address_get self' = Plugin.Runtime_address s
                     /\ TCPServer.port_get self' = Plugin.Runtime_port s
                     /\ TCPServer.handler_get self'
                        = Plugin.Runtime_requestsHandler s
                     /\ Plugin.status_file s'
                        = Some [("active", VInt 1);
                                ("address", Plugin.Runtime_address s);
                                ("port", Plugin.Runtime_port s);
                                ("handler", Plugin.Runtime_requestsHandler s);
                                ("touched", VInt (clock (Plugin.ticks s)))]).
  { intros Hno. rewrite startServer_offline in H by exact Hno.
    destruct (TCPServer.__init__ _ _ _) as [self0|e] eqn:Hi; [|discriminate].
    apply init_ok in Hi as [-> _].
    destruct env as [|args|e].
    - rewrite start_offline_bound in H by reflexivity. cbv zeta in H.
      cbn [TCPServer.__handler TCPServer.__address TCPServer.__port] in H.
      destruct (Plugin.Runtime_requestsHandler s) eqn:Hh; try discriminate.
      injection H as <- <-. split; [reflexivity|].
      destruct s; simpl in *. eexists. repeat split.
    - rewrite start_offline_failed in H by (reflexivity || discriminate).
      discriminate.
    - rewrite start_offline_failed in H by (reflexivity || discriminate).
      discriminate. }
  destruct (Plugin.Runtime_server s) as [self|] eqn:Hs.
  - destruct (TCPServer.online_get self) eqn:Hself.
    + rewrite (Hon self eq_refl Hself) in H. injection H as <- <-.
      exists self. destruct s; simpl in *.
      split; [assumption|]. split; [assumption|]. split; [now left|].
      split; [split; [intros _; exists self; auto | reflexivity]|].
      split; [intros _; split; reflexivity | discriminate].
    + destruct Hoff as (-> & self' & H1 & H2 & H3 & H4 & H5 & H6 & H7);
        [unfold nothing_online; rewrite Hs; exact Hself|].
      exists self'. split; [exact H1|]. split; [exact H2|].
      split; [now right|].
      split; [split; [discriminate|]|].
      * intros (self0 & [= <-] & Hc). congruence.
      * split; [discriminate|]. intros _.
        unfold nothing_online. rewrite Hs. auto 10.
  - destruct Hoff as (-> & self' & H1 & H2 & H3 & H4 & H5 & H6 & H7);
      [unfold nothing_online; rewrite Hs; exact I|].
    exists self'. split; [exact H1|]. split; [exact H2|].
    split; [now right|].
    split; [split; [discriminate|]|].
    + intros (self0 & [=] & _).
    + split; [discriminate|]. intros _.
      unfold nothing_online. rewrite Hs. auto 10.
Qed.

Lemma startServer_returns_online_witness :
  (exists self',
      Plugin.Runtime_server
        (snd (Plugin._startServer "<TCPServer>" (fun _ => 1700000000)
                TCPServer.Bound
                (Plugin.mkState None (VStr Constants.defaultAddress)
                   (VInt Constants.defaultPort)
                   (VClass DefaultStackDataRequestsHandler_) [] None 0)))
      = Some self'
      /\ TCPServer.online_get self' = true)
  /\ fst (Plugin._startServer "<TCPServer>" (fun _ => 1700000000)
            (TCPServer.SocketError [])
            (Plugin.mkState
               (Some (fst (snd (TCPServer.start "<TCPServer>" TCPServer.Bound
                                 (TCPServer.mk (VStr "127.0.0.1")
                                    (VInt 12288)
                                    (VClass EchoRequestsHandler_)
                                    None None false, [])))))
               (VStr "127.0.0.1") (VInt 12289)
               (VClass EchoRequestsHandler_) [] None 0))
     = Ok VNone.
Proof.
  split.
  - destruct (proj2 (startServer_returns_online "<TCPServer>"
                       (fun _ => 1700000000) TCPServer.Bound
                       (Plugin.mkState None (VStr Constants.defaultAddress)
                          (VInt Constants.defaultPort)
                          (VClass DefaultStackDataRequestsHandler_) [] None 0))
                _ _ eq_refl) as (self' & Hs & Hon & _).
    exists self'. split; [exact Hs | exact Hon].
  - rewrite (proj1 (startServer_returns_online "<TCPServer>"
                      (fun _ => 1700000000) (TCPServer.SocketError [])
                      (Plugin.mkState
                         (Some (fst (snd (TCPServer.start "<TCPServer>" TCPServer.Bound
                                 (TCPServer.mk (VStr "127.0.0.1")
                                    (VInt 12288)
                                    (VClass EchoRequestsHandler_)
                                    None None false, [])))))
                         (VStr "127.0.0.1") (VInt 12289)
                         (VClass EchoRequestsHandler_) [] None 0))
               _ eq_refl eq_refl).
    reflexivity.
Defined.

(** X16. [_stopServer] when [Runtime] holds an offline server logs a
    warning and returns [None], and changes nothing else; when [Runtime]
    holds no server it returns [True] and writes the status file; when
    [Runtime] holds an online server (whose attributes agree) it stops it,
    writes the status file and returns [True].  The status file it writes
    holds [active = 0] and the time of the call, and nothing else.
    Whenever [_stopServer] returns, no server is online, and it has
    returned [None] exactly when [Runtime] held an offline server. *)
Theorem stopServer_returns_offline :
  forall repr clock s,
    let stopped_file :=
      Some [("active", VInt 0);
            ("touched", VInt (clock (Plugin.ticks s)))] in
    (forall self,
        Plugin.Runtime_server s = Some self ->
        TCPServer.online_get self = false ->
        Plugin._stopServer repr clock s
        = (Ok VNone,
           Plugin.with_calls
             (Plugin.app_calls s
              ++ [LogMessage "TCPServer | The server is not online!"
                    (Some siWarning)])%list s))
    /\ (Plugin.Runtime_server s = None ->
        Plugin._stopServer repr clock s
        = (Ok (VBool true),
           Plugin.with_status_file stopped_file
             (Plugin.with_ticks (S (Plugin.ticks s)) s)))
    /\ (forall self,
           Plugin.Runtime_server s = Some self ->
           TCPServer.online_get self = true ->
           attached self ->
           Plugin._stopServer repr clock s
           = (Ok (VBool true),
              Plugin.with_status_file stopped_file
                (Plugin.with_ticks (S (Plugin.ticks s))
                   (Plugin.with_calls
                      (Plugin.app_calls s
                       ++ [LogMessage
                             "TCPServer | Server successfully stopped!"
                             (Some siInfo)])%list
                      (Plugin.with_server
                         (Some (TCPServer.mk (TCPServer.__address self)
                                  (TCPServer.__port self)
                                  (TCPServer.__handler self)
                                  None None false))
                         s)))))
    /\ (forall v s',
           Plugin._stopServer repr clock s = (Ok v, s') ->
           nothing_online s'
           /\ (v = VNone \/ v = VBool true)
           /\ (v = VNone <->
               exists self,
                 Plugin.Runtime_server s = Some self
                 /\ TCPServer.online_get self = false)
           /\ (v = VBool true -> Plugin.status_file s' = stopped_file)).
Proof.
  intros repr clock s stopped_file. subst stopped_file.
  rewrite !stopServer_cases.
  split; [|split; [|split]].
  - intros self -> ->. reflexivity.
  - intros ->. reflexivity.
  - intros self -> Hon Ha. rewrite Hon.
    unfold TCPServer.stop, bind, TCPServer.get_self. simpl.
    unfold TCPServer.online_get in Hon. rewrite Hon. simpl.
    unfold attached in Ha. rewrite Hon in Ha.
    destruct (TCPServer.__server self); [reflexivity|].
    destruct (TCPServer.__worker self); contradiction.
  - intros v s' H. unfold nothing_online.
    destruct (Plugin.Runtime_server s) as [self|] eqn:Hs.
    + destruct (TCPServer.online_get self) eqn:Hon.
      * destruct (stop_online repr self (Plugin.app_calls s) Hon)
          as (r & st & Hp & _ & Hok).
        rewrite Hp in H. destruct r as [u|e]; [|discriminate].
        injection H as <- <-. specialize (Hok u eq_refl).
        destruct s; simpl in *.
        split; [assumption|]. split; [now right|].
        split; [split; [discriminate|]|reflexivity].
        intros (self0 & [= <-] & Hc). congruence.
      * injection H as <- <-. destruct s; simpl in *. subst.
        split; [assumption|]. split; [now left|].
        split; [split; [intros _; eauto | reflexivity]|discriminate].
    + injection H as <- <-. destruct s; simpl in *. subst.
      split; [exact I|]. split; [now right|].
      split; [split; [discriminate|]|reflexivity].
      intros (self0 & [=] & _).
Qed.

Lemma stopServer_returns_offline_witness :
  Plugin.status_file
    (snd (Plugin._stopServer "<TCPServer>" (fun _ => 1700000000)
            (Plugin.mkState None (VStr "127.0.0.1") (VInt 12288)
               (VClass EchoRequestsHandler_) [] None 0)))
  = Some [("active", VInt 0); ("touched", VInt 1700000000)]
  /\ fst (Plugin._stopServer "<TCPServer>" (fun _ => 1700000000)
            (Plugin.mkState
               (Some (TCPServer.mk (VStr "127.0.0.1") (VInt 12288)
                        (VClass EchoRequestsHandler_) None None false))
               (VStr "127.0.0.1") (VInt 12288)
               (VClass EchoRequestsHandler_) [] None 0))
     = Ok VNone.
Proof.
  split.
  - rewrite (proj1 (proj2
               (stopServer_returns_offline "<TCPServer>"
                  (fun _ => 1700000000)
                  (Plugin.mkState None (VStr "127.0.0.1") (VInt 12288)
                     (VClass EchoRequestsHandler_) [] None 0))) eq_refl).
    reflexivity.
  - rewrite (proj1
               (stopServer_returns_offline "<TCPServer>"
                  (fun _ => 1700000000)
                  (Plugin.mkState
                     (Some (TCPServer.mk (VStr "127.0.0.1") (VInt 12288)
                              (VClass EchoRequestsHandler_) None None false))
                     (VStr "127.0.0.1") (VInt 12288)
                     (VClass EchoRequestsHandler_) [] None 0))
               _ eq_refl eq_refl).
    reflexivity.
Defined.

(** X17. A restart whose bind fails leaves nothing online: when the socket
    cannot be bound, [_restartServer] ends with an exception, and
    [Runtime.server] is then offline (the server that was online before
    the restart has been stopped) or absent. *)
Theorem restartServer_failed_bind :
  forall repr clock env s,
    env <> TCPServer.Bound ->
    match Plugin.Runtime_server s with
    | Some self => consistent self
    | None => True
    end ->
    exists e s',
      Plugin._restartServer repr clock env s = (Raise e, s')
      /\ nothing_online s'.
Proof.
  intros repr clock env s Henv Hc.
  unfold Plugin._restartServer, bind at 1, Plugin.get.
  destruct (Plugin.Runtime_server s) as [self|] eqn:Hs.
  - destruct (TCPServer.online_get self) eqn:Hon.
    + unfold bind at 1. rewrite stopServer_cases, Hs, Hon.
      rewrite stop_consistent_online by assumption.
      unfold bind.
      match goal with
      | |- context [Plugin._startServer repr clock env ?s1] =>
          destruct (startServer_not_bound repr clock env s1)
            as (e & s' & Hst & Hoff);
            [destruct s; reflexivity | exact Henv |]; rewrite Hst
      end.
      eauto.
    + unfold bind, ret.
      destruct (startServer_not_bound repr clock env s)
        as (e & s' & Hst & Hoff);
        [unfold nothing_online; now rewrite Hs | exact Henv |].
      rewrite Hst. eauto.
  - unfold bind, ret.
    destruct (startServer_not_bound repr clock env s)
      as (e & s' & Hst & Hoff);
      [unfold nothing_online; now rewrite Hs | exact Henv |].
    rewrite Hst. eauto.
Qed.

Lemma restartServer_failed_bind_witness :
  exists e s',
    Plugin._restartServer "<TCPServer>" (fun _ => 1700000000)
      (TCPServer.SocketError [VInt 10048; VStr "in use"])
      (Plugin.mkState
         (Some (TCPServer.mk (VStr "127.0.0.1") (VInt 12288)
                  (VClass EchoRequestsHandler_)
                  (Some (TCPServer.mkSocketServer
                           (VStr "127.0.0.1", VInt 12288)
                           (VClass EchoRequestsHandler_)))
                  (Some (TCPServer.daemon_thread
                           (TCPServer.mkSocketServer
                              (VStr "127.0.0.1", VInt 12288)
                              (VClass EchoRequestsHandler_))))
                  true))
         (VStr "127.0.0.1") (VInt 12289) (VClass EchoRequestsHandler_)
         [] None 0)
    = (Raise e, s')
    /\ nothing_online s'.
Proof.
  apply restartServer_failed_bind; [discriminate|].
  simpl. unfold consistent. simpl. auto.
Defined.


